(** * Lab 5.5 -- model refinement notebook: load-or-fallback and conditional save

    Shallow embedding of
    [notebooks/week5/lab_5_5_model_refinement_instructor.py].

    The notebook is a straight-line script over a file store
    ([/dbfs/FileStore]) with two helpers, [load_or_create_demo_data] and
    [safe_load_model], a grid search, and a final conditional [joblib.dump].
    The script is embedded in a small state-and-exception monad over a
    [world] made of the file store and the trace of observable events
    (printed messages, fits, dumps).

    Modelling conventions.
    - A [float64] array entry is its IEEE-754 bit pattern, kept as a [Z];
      the notebook never computes on entries, it only moves arrays around.
    - An accuracy is a count of matches divided by a count of samples; it is
      kept as an exact rational ([Q]) or [NaN].  For counts below [2^53] the
      binary64 quotients [k1/n] and [k2/n] compare exactly as the rationals
      do, so [>=] on the embedding is [>=] of the Python floats.
    - The learning algorithms of scikit-learn are one function
      [predict_row]: what an estimator of a given class and hyperparameters,
      trained on a given data set, answers on a row.  A pseudo-random
      stream is a function of the state of the generator it is drawn from:
      a fresh generator for an integer seed, numpy's global generator
      ([np_random], whatever state it is in) when no seed is given.
    - Whether a path can be written is the file system's answer
      ([write_error]); the notebook creates no directory and changes no
      permission, so the answer is the same throughout a run.
    - numpy, joblib and scikit-learn are not part of the repository.  Their
      calls are modelled as far as the notebook observes them: a load
      returns the stored object, raises [FileNotFoundError] or raises the
      error of a malformed file; a dump writes the file or raises the file
      system's error; [fit], [predict] and [accuracy_score] check their
      arguments (shapes included) and otherwise go through [predict_row];
      [make_classification], [train_test_split] and [GridSearchCV] are
      modelled from the specification, each under a comment that says so. *)

From Stdlib Require Import QArith Qround Lia.
From stdpp Require Import base option list sorting gmap strings.

Local Open Scope string_scope.
Local Open Scope nat_scope.

(** ** Python values *)

Definition float64 := Z.
Definition row := list float64.
Definition label := Z.
Definition dataset := list (row * label).

(** A Python float that is the result of a division: a rational or NaN. *)
Inductive pyfloat :=
  | NaN
  | Finite (q : Q).

(** Python's [a >= b] on floats; every comparison with NaN is False. *)
Definition pyfloat_ge (a b : pyfloat) : bool :=
  match a, b with
  | Finite x, Finite y => Qle_bool y x
  | _, _ => false
  end.

(** Hyperparameter values as they occur in the notebook's grids. *)
Inductive pval :=
  | PNone
  | PInt (n : Z)
  | PReal (q : Q)
  | PStr (s : string).

Definition params := list (string * pval).

(** The estimator classes the notebook distinguishes with [isinstance] and
    [hasattr].  [OtherEstimator fi] stands for any other class; [fi] tells
    whether its fitted instances expose [feature_importances_]. *)
Inductive estimator_class :=
  | RandomForestClassifier
  | LogisticRegression
  | OtherEstimator (fi : bool).

(** An estimator object: its class, its constructor parameters and, once
    fitted, the data it was fitted on. *)
Record model := Model {
  m_class : estimator_class;
  m_params : params;
  m_fitted : option dataset
}.

Inductive pyobj :=
  | NdArray (X : list row)
  | Labels (y : list label)
  | Estimator (m : model)
  | PyOther.

(** ** Exceptions *)

Inductive exn :=
  | FileNotFoundError (p : string)
  | PermissionError
  | EOFError
  | UnpicklingError
  | ValueError
  | TypeError
  | AttributeError
  | NotFittedError
  | ConfigurationError.

(** Ways in which a file that is present fails to load. *)
Inductive corruption :=
  | Truncated
  | BadFormat
  | BadPickle
  | Unreadable.

Definition exn_of_corruption (c : corruption) : exn :=
  match c with
  | Truncated => EOFError
  | BadFormat => ValueError
  | BadPickle => UnpicklingError
  | Unreadable => PermissionError
  end.

(** [except FileNotFoundError] *)
Definition is_FileNotFoundError (e : exn) : bool :=
  match e with
  | FileNotFoundError _ => true
  | _ => false
  end.

(** [except Exception]: every exception of the model is an [Exception]. *)
Definition is_Exception (e : exn) : bool := true.

(** ** The world: file store and trace *)

Inductive file :=
  | Readable (o : pyobj)
  | Corrupt (c : corruption).

Inductive message :=
  | MsgLoadedData
  | MsgFilesNotFound
  | MsgLoadedModel (p : string)
  | MsgCouldNotLoad (p : string) (e : exn)
  | MsgModelType (c : option estimator_class)
  | MsgTrainAccuracy (a : pyfloat)
  | MsgTestAccuracy (a : pyfloat)
  | MsgBestParams (p : params)
  | MsgBestCVAccuracy (a : Q)
  | MsgLogRegBestParams (p : params)
  | MsgLogRegBestCVAccuracy (a : Q)
  | MsgComparison (old_acc new_acc : pyfloat)
  | MsgSavingNewBest
  | MsgKeepingOld.

Inductive event :=
  | Printed (m : message)
  | Fitted (c : estimator_class) (p : params) (d : dataset)
  | Dumped (p : string) (o : pyobj).

Record world := World {
  fs : gmap string file;
  trace : list event
}.

(** ** State and exception monad *)

Inductive outcome (A : Type) :=
  | Returns (a : A)
  | Raises (e : exn).
Arguments Returns {A} a.
Arguments Raises {A} e.

Definition M (A : Type) : Type := world → outcome A * world.

Definition ret {A} (a : A) : M A := λ w, (Returns a, w).

Definition raise {A} (e : exn) : M A := λ w, (Raises e, w).

Definition bind {A B} (k : A → M B) (m : M A) : M B :=
  λ w, match m w with
       | (Returns a, w') => k a w'
       | (Raises e, w') => (Raises e, w')
       end.

#[global] Instance M_ret : MRet M := @ret.
#[global] Instance M_bind : MBind M := @bind.

Definition lift {A} (o : outcome A) : M A := λ w, (o, w).

(** [try: body except <catches> as exc: handler exc].  Effects of the body
    up to the raise are kept. *)
Definition try_except {A} (body : M A) (catches : exn → bool)
    (handler : exn → M A) : M A :=
  λ w, match body w with
       | (Returns a, w') => (Returns a, w')
       | (Raises e, w') => if catches e then handler e w' else (Raises e, w')
       end.

Definition emit (e : event) : M unit :=
  λ w, (Returns tt, World (fs w) (trace w ++ [e])).

Definition print (m : message) : M unit := emit (Printed m).

(** [np.load(path)] and [joblib.load(path)]: an absent file raises
    [FileNotFoundError], a file that is present but does not deserialise
    raises the error of its corruption. *)
Definition load_file (path : string) : M pyobj :=
  λ w, match fs w !! path with
       | None => (Raises (FileNotFoundError path), w)
       | Some (Corrupt c) => (Raises (exn_of_corruption c), w)
       | Some (Readable o) => (Returns o, w)
       end.

Definition np_load := load_file.
Definition joblib_load := load_file.

(** [joblib.dump(obj, path)]: the file is opened for writing first, so a
    path that cannot be written (its directory does not exist, say, which
    raises [FileNotFoundError]) raises before anything is stored. *)
Definition joblib_dump (write_error : string → option exn) (o : pyobj)
    (path : string) : M unit :=
  λ w, match write_error path with
       | Some e => (Raises e, w)
       | None =>
           (Returns tt,
            World (<[path := Readable o]> (fs w)) (trace w ++ [Dumped path o]))
       end.

(** [m] returns [a], leaves the store alone and appends [evs] to the
    trace, from whatever world it starts. *)
Definition logs {A} (m : M A) (a : A) (evs : list event) : Prop :=
  ∀ w, m w = (Returns a, World (fs w) (trace w ++ evs)).

(** [m] never writes the store. *)
Definition fs_stable {A} (m : M A) : Prop := ∀ w, fs (m w).2 = fs w.

(** How a load can fail. *)
Inductive load_failure :=
  | Absent (p : string)
  | Malformed (p : string) (c : corruption).

(** The first of [paths], in order, that does not load from store [s]. *)
Fixpoint first_failure (s : gmap string file) (paths : list string)
    : option load_failure :=
  match paths with
  | [] => None
  | p :: ps =>
      match s !! p with
      | None => Some (Absent p)
      | Some (Corrupt c) => Some (Malformed p c)
      | Some (Readable _) => first_failure s ps
      end
  end.

(** The object stored at a path that loads. *)
Definition stored (s : gmap string file) (p : string) : pyobj :=
  match s !! p with
  | Some (Readable o) => o
  | _ => PyOther
  end.

(** [os.path.join] for a base without trailing slash and a relative name. *)
Definition os_path_join (base name : string) : string :=
  base ++ "/" ++ name.

(** ** scikit-learn: data generation and stratified splitting *)

(** The arguments of [make_classification] that the notebook sets. *)
Record classification_args := ClassificationArgs {
  n_samples : nat;
  n_features : nat;
  n_informative : nat;
  n_redundant : nat;
  n_classes : nat;
  weights : list Q;
  mc_random_state : option Z
}.

(** The independent pseudo-random streams one seeded split draws from. *)
Inductive stream :=
  | TieBreak
  | ClassShuffle (c : label)
  | TrainOrder
  | TestOrder.

(** Largest-remainder order on classes: bigger remainder first, ties by
    the drawn key. *)
Definition remainder_order (rem : label → nat) (tie : label → Z)
    (a b : label) : Prop :=
  rem b < rem a ∨ (rem a = rem b ∧ (tie a ≤ tie b)%Z).

#[global] Instance remainder_order_dec rem tie a b :
  Decision (remainder_order rem tie a b).
Proof. unfold remainder_order. apply _. Defined.

Definition key_order {A} (key : Z → Z) (a b : nat * A) : Prop :=
  (key (Z.of_nat a.1) ≤ key (Z.of_nat b.1))%Z.

#[global] Instance key_order_dec {A} key (a b : nat * A) :
  Decision (key_order key a b).
Proof. unfold key_order. apply _. Defined.

(** A seeded permutation of indexed items: sort by the drawn keys. *)
Definition permute {A} (key : Z → Z) (l : list (nat * A)) : list (nat * A) :=
  merge_sort (key_order key) l.

Definition class_count (y : list label) (c : label) : nat :=
  length (filter (λ l, l = c) y).

(** [np.unique(y)]: the labels that occur, sorted, each once. *)
Definition unique_labels (y : list label) : list label :=
  merge_sort Z.le (remove_dups y).

(** Modelled from the spec: the class allocation of scikit-learn's
    stratified split, which is not part of this repository.  Each class
    gets the integer part of its proportional share of [n_draws]; the
    samples still missing go, one each, to the classes with the largest
    fractional parts, so that every class is within one sample of its exact
    proportional share. *)
Definition approximate_mode (tie : label → Z) (classes : list label)
    (count : label → nat) (n_draws : nat) : label → nat :=
  let n := sum_list_with count classes in
  let quota c := count c * n_draws / n in
  let rem c := (count c * n_draws) `mod` n in
  let need := n_draws - sum_list_with quota classes in
  let ranked := merge_sort (remainder_order rem tie) classes in
  let bonus := take need ranked in
  λ c, quota c + (if decide (c ∈ bonus) then 1 else 0).

Section Sklearn.

(** What a fitted estimator answers on a row. *)
Variable predict_row : estimator_class → params → dataset → row → label.
(** The draws of a generator in a given state: entry [j] of sample [i],
    and label of sample [i]. *)
Variable draw_feature : Z → classification_args → nat → nat → float64.
Variable draw_label : Z → classification_args → nat → label.
(** The sort keys drawn from a generator in a given state on a stream. *)
Variable rng_key : Z → stream → Z → Z.
(** The state of numpy's global generator. *)
Variable np_random : Z.
(** What the file system answers to a write at a path: nothing, or the
    error it raises. *)
Variable write_error : string → option exn.

(** Modelled from the spec: [sklearn.utils.check_random_state], which is
    not part of this repository.  An integer seeds a generator of its own,
    whose state is the seed; without a seed the draws come from numpy's
    global generator, in whatever state it is. *)
Definition check_random_state (random_state : option Z) : Z :=
  match random_state with
  | Some seed => seed
  | None => np_random
  end.

(** Modelled from the spec: [sklearn.datasets.make_classification], which is
    not part of this repository.  It generates a synthetic labelled data set
    of the configured size and feature dimensionality; the draws depend on
    the arguments and on the generator that [random_state] stands for. *)
Definition make_classification (a : classification_args)
    : list row * list label :=
  let g := check_random_state (mc_random_state a) in
  ((λ i, (λ j, draw_feature g a i j) <$> seq 0 (n_features a))
     <$> seq 0 (n_samples a),
   draw_label g a <$> seq 0 (n_samples a)).

(** Modelled from the spec: [sklearn.model_selection.train_test_split] with
    [stratify=y], which is not part of this repository.  A stratified split
    with a fixed test proportion, deterministic under a seed: the test part
    has
    [ceil(test_size * n)] samples, the training part the rest; each class is
    shuffled and cut at its allocation [approximate_mode], the head going to
    the training part and the rest to the test part; both parts are shuffled
    again.  Returns [(X_train, X_test, y_train, y_test)]. *)
Definition train_test_split (X : list row) (y : list label) (test_size : Q)
    (random_state : option Z)
    : list row * list row * list label * list label :=
  let g := check_random_state random_state in
  let n := length y in
  let n_test := Z.to_nat (Qceiling (test_size * inject_Z (Z.of_nat n))) in
  let n_train := n - n_test in
  let data := imap (λ i d, (i, d)) (zip X y) in
  let classes := unique_labels y in
  let n_i := approximate_mode (rng_key g TieBreak) classes
               (class_count y) n_train in
  let shuffled c :=
    permute (rng_key g (ClassShuffle c))
            (filter (λ d, d.2.2 = c) data) in
  let train := permute (rng_key g TrainOrder)
                 (classes ≫= λ c, take (n_i c) (shuffled c)) in
  let test := permute (rng_key g TestOrder)
                (classes ≫= λ c, drop (n_i c) (shuffled c)) in
  (train.*2.*1, test.*2.*1, train.*2.*2, test.*2.*2).

(** ** scikit-learn: estimators and metrics *)

(** [hasattr(o, "feature_importances_")]: the attribute of a forest is a
    property that raises [NotFittedError] (an [AttributeError]) before
    fitting, so [hasattr] answers False on an unfitted one. *)
Definition hasattr_feature_importances (o : pyobj) : bool :=
  match o with
  | Estimator m =>
      match m_class m with
      | RandomForestClassifier => bool_decide (is_Some (m_fitted m))
      | LogisticRegression => false
      | OtherEstimator fi => fi && bool_decide (is_Some (m_fitted m))
      end
  | _ => false
  end.

Definition isinstance_RandomForestClassifier (o : pyobj) : bool :=
  match o with
  | Estimator m =>
      match m_class m with RandomForestClassifier => true | _ => false end
  | _ => false
  end.

Definition type_of (o : pyobj) : option estimator_class :=
  match o with
  | Estimator m => Some (m_class m)
  | _ => None
  end.

(** The rows all have [k] entries: an array of shape [(n, k)]. *)
Definition has_width (k : nat) (X : list row) : Prop :=
  Forall (λ r, length r = k) X.

(** Number of columns of an array, read off its first row. *)
Definition n_columns (X : list row) : nat :=
  match X with
  | [] => 0
  | r :: _ => length r
  end.

(** [n_features_in_] of an estimator fitted on [d]. *)
Definition n_features_in (d : dataset) : nat := n_columns d.*1.

(** The validation [fit] and the search apply to their data: [X] is a
    two-dimensional array (all rows as long as the first) with at least one
    column, and [y] a label vector of the same length. *)
Definition indexable (X y : pyobj) : outcome dataset :=
  match X, y with
  | NdArray rows, Labels ls =>
      if decide (length rows = length ls
                 ∧ (rows = [] ∨ 0 < n_columns rows)
                 ∧ has_width (n_columns rows) rows)
      then Returns (zip rows ls)
      else Raises ValueError
  | _, _ => Raises ValueError
  end.

(** An estimator also refuses an array with no sample. *)
Definition nonempty {A} (l : list A) : outcome unit :=
  match l with
  | [] => Raises ValueError
  | _ :: _ => Returns tt
  end.

(** [est.fit(X, y)]; the object is updated in place and is the value. *)
Definition fit (o X y : pyobj) : M pyobj :=
  match o with
  | Estimator m =>
      d ← lift (indexable X y);
      lift (nonempty d);;
      emit (Fitted (m_class m) (m_params m) d);;
      mret (Estimator (Model (m_class m) (m_params m) (Some d)))
  | _ => raise AttributeError
  end.

(** [est.predict(X)]: an estimator that is not fitted raises
    [NotFittedError]; a fitted one raises [ValueError] unless [X] is an
    array with at least one row whose rows have as many entries as the
    estimator saw features when it was fitted. *)
Definition predict (o X : pyobj) : outcome (list label) :=
  match o with
  | Estimator m =>
      match m_fitted m with
      | None => Raises NotFittedError
      | Some d =>
          match X with
          | NdArray (r :: rows) =>
              if decide (0 < n_features_in d
                         ∧ has_width (n_features_in d) (r :: rows))
              then Returns (predict_row (m_class m) (m_params m) d
                              <$> (r :: rows))
              else Raises ValueError
          | _ => Raises ValueError
          end
      end
  | _ => Raises AttributeError
  end.

(** Number of positions where prediction and truth agree. *)
Definition matches (y_true y_pred : list label) : nat :=
  length (filter (λ p, p.1 = p.2) (zip y_true y_pred)).

Definition fraction (k n : nat) : Q := Z.of_nat k # Pos.of_nat n.

(** [accuracy_score(y_true, y_pred)]: fraction of exact label matches. *)
Definition accuracy_score (y_true : pyobj) (y_pred : list label)
    : outcome pyfloat :=
  match y_true with
  | Labels ys =>
      if decide (length ys = length y_pred) then
        Returns (match ys with
                 | [] => NaN
                 | _ => Finite (fraction (matches ys y_pred) (length ys))
                 end)
      else Raises ValueError
  | _ => Raises ValueError
  end.

(** [accuracy_score(y, o.predict(X))], the expression the notebook
    evaluates for every accuracy it reports or compares. *)
Definition test_accuracy (o X y : pyobj) : outcome pyfloat :=
  match predict o X with
  | Returns p => accuracy_score y p
  | Raises e => Raises e
  end.

(** Estimator [m] is fitted, on data of [k] columns. *)
Definition takes_width (m : model) (k : nat) : Prop :=
  ∃ d, m_fitted m = Some d ∧ n_features_in d = k.

(** ** scikit-learn: grid search *)

Inductive scorer := Accuracy.

Record GridSearchCV := {
  estimator : model;
  param_grid : list (string * list pval);
  cv : nat;
  scoring : scorer;
  n_jobs : Z
}.

Record search_result := SearchResult {
  cv_results_ : list (params * Q);
  best_params_ : params;
  best_score_ : Q;
  best_estimator_ : model
}.

(** Cartesian product of the grid. *)
Fixpoint ParameterGrid (grid : list (string * list pval)) : list params :=
  match grid with
  | [] => [[]]
  | (k, vs) :: rest => v ← vs; p ← ParameterGrid rest; [(k, v) :: p]
  end.

(** [clone(est)] followed by [set_params]: an unfitted copy of [est] in
    which the entries of [p] override. *)
Definition set_params (m : model) (p : params) : model :=
  Model (m_class m)
        (p ++ filter (λ kv, kv.1 ∉ p.*1) (m_params m))%list
        None.

(** The [i]-th of [k] contiguous folds of [d]: (training part, validation
    part).  The first [n mod k] folds have one sample more. *)
Definition fold (k : nat) (d : dataset) (i : nat) : dataset * dataset :=
  let n := length d in
  let start := i * (n / k) + i `min` (n `mod` k) in
  let size := n / k + (if decide (i < n `mod` k) then 1 else 0) in
  ((take start d ++ drop (start + size) d)%list, take size (drop start d)).

Definition kfold (k : nat) (d : dataset) : list (dataset * dataset) :=
  fold k d <$> seq 0 k.

Definition Qsum (l : list Q) : Q := foldr Qplus 0%Q l.

Definition mean (l : list Q) : Q :=
  (Qsum l / inject_Z (Z.of_nat (length l)))%Q.

(** Validation score of one candidate on one fold, without the effects. *)
Definition fold_score (est : model) (f : dataset * dataset) : Q :=
  let pred := predict_row (m_class est) (m_params est) f.1 <$> f.2.*1 in
  fraction (matches f.2.*2 pred) (length f.2).

Definition fit_and_score (est : model) (f : dataset * dataset) : M Q :=
  emit (Fitted (m_class est) (m_params est) f.1);;
  mret (fold_score est f).

Definition evaluate_candidate (base : model)
    (folds : list (dataset * dataset)) (p : params) : M (params * Q) :=
  scores ← mapM (fit_and_score (set_params base p)) folds;
  mret (p, mean scores).

(** Mean validation score of combination [p] over the folds. *)
Definition cv_score (base : model) (folds : list (dataset * dataset))
    (p : params) : Q :=
  mean (fold_score (set_params base p) <$> folds).

(** The fits of one candidate, one per fold, as they are logged. *)
Definition candidate_fits (base : model) (folds : list (dataset * dataset))
    (p : params) : list event :=
  folds ≫= λ f, [Fitted (m_class (set_params base p))
                        (m_params (set_params base p)) f.1].

(** First candidate with the highest score. *)
Definition better (acc : option (params * Q)) (x : params * Q)
    : option (params * Q) :=
  match acc with
  | None => Some x
  | Some b => if Qle_bool x.2 b.2 then Some b else Some x
  end.

Definition best_of (results : list (params * Q)) : option (params * Q) :=
  foldl better None results.

(** Modelled from the spec: [GridSearchCV(...).fit(X, y)] of scikit-learn,
    which is not part of this repository.  A fold count above the number of
    samples (or below two) and an empty grid are configuration errors,
    raised before any training; otherwise every combination of the Cartesian product of the
    grid is scored by k-fold cross-validation on the given data, the first
    combination with the highest mean validation score is the best one, and
    the best estimator is refit on all the given data with it. *)
Definition GridSearchCV_fit (gs : GridSearchCV) (X y : pyobj)
    : M search_result :=
  d ← lift (indexable X y);
  let candidates := ParameterGrid (param_grid gs) in
  if decide (cv gs < 2 ∨ length d < cv gs ∨ param_grid gs = []
             ∨ candidates = []) then raise ConfigurationError
  else
    results ← mapM (evaluate_candidate (estimator gs) (kfold (cv gs) d))
                   candidates;
    match best_of results with
    | None => raise ConfigurationError
    | Some (p, s) =>
        let est := set_params (estimator gs) p in
        emit (Fitted (m_class est) (m_params est) d);;
        mret (SearchResult results p s
                (Model (m_class est) (m_params est) (Some d)))
    end.

(** ** The notebook *)

Definition base_path : string := "/dbfs/FileStore".
Definition X_train_path : string :=
  os_path_join base_path "X_train_transformed.npy".
Definition X_test_path : string :=
  os_path_join base_path "X_test_transformed.npy".
Definition y_train_path : string := os_path_join base_path "y_train.pkl".
Definition y_test_path : string := os_path_join base_path "y_test.pkl".

(** The four loads of [load_or_create_demo_data], in program order. *)
Definition dataset_paths : list string :=
  [X_train_path; X_test_path; y_train_path; y_test_path].

Definition demo_args (random_state : Z) : classification_args :=
  ClassificationArgs 400 10 6 2 2 [55 # 100; 45 # 100]%Q (Some random_state).

(** The [except FileNotFoundError] branch of [load_or_create_demo_data]. *)
Definition synthetic_demo_data (random_state : Z)
    : pyobj * pyobj * pyobj * pyobj :=
  let '(X, y) := make_classification (demo_args random_state) in
  let '(X_train, X_test, y_train, y_test) :=
    train_test_split X y (2 # 10) (Some random_state) in
  (NdArray X_train, NdArray X_test, Labels y_train, Labels y_test).

(** [load_or_create_demo_data] (lines 41-69): the four loads in one [try],
    the synthetic data on [FileNotFoundError]. *)
Definition load_or_create_demo_data (random_state : Z)
    : M (pyobj * pyobj * pyobj * pyobj) :=
  try_except
    (X_train ← np_load X_train_path;
     X_test ← np_load X_test_path;
     y_train ← joblib_load y_train_path;
     y_test ← joblib_load y_test_path;
     print MsgLoadedData;;
     mret (X_train, X_test, y_train, y_test))
    is_FileNotFoundError
    (λ _, print MsgFilesNotFound;;
          mret (synthetic_demo_data random_state)).

(** [safe_load_model] (lines 72-80): the default on any [Exception]. *)
Definition safe_load_model (path : string) (default_model : pyobj)
    : M pyobj :=
  try_except
    (model ← joblib_load path;
     print (MsgLoadedModel path);;
     mret model)
    is_Exception
    (λ exc, print (MsgCouldNotLoad path exc);;
            mret default_model).

Definition best_model_path : string := "/dbfs/FileStore/stedi_best_model.pkl".

(** [RandomForestClassifier(random_state=42)] *)
Definition default_model : model :=
  Model RandomForestClassifier [("random_state", PInt 42)] None.

(** The guard after the model is resolved (lines 103-104): fit a fresh
    default forest. *)
Definition fit_if_fresh (old_model X_train y_train : pyobj) : M pyobj :=
  if negb (hasattr_feature_importances old_model)
     && isinstance_RandomForestClassifier old_model
  then fit old_model X_train y_train
  else mret old_model.

(** Baseline performance of [old_model], computed and printed (lines
    107-112). *)
Definition report_baseline (X_train X_test y_train y_test old_model : pyobj)
    : M unit :=
  train_pred ← lift (predict old_model X_train);
  train_acc ← lift (accuracy_score y_train train_pred);
  test_pred ← lift (predict old_model X_test);
  test_acc ← lift (accuracy_score y_test test_pred);
  print (MsgModelType (type_of old_model));;
  print (MsgTrainAccuracy train_acc);;
  print (MsgTestAccuracy test_acc).

(** Section 1 (lines 96-112): load the data and the prior best model, print
    the baseline.
    The value is the notebook's variables
    [(X_train, X_test, y_train, y_test, old_model)]. *)
Definition load_existing : M (pyobj * pyobj * pyobj * pyobj * pyobj) :=
  '(X_train, X_test, y_train, y_test) ← load_or_create_demo_data 42;
  old_model ← safe_load_model best_model_path (Estimator default_model);
  old_model ← fit_if_fresh old_model X_train y_train;
  report_baseline X_train X_test y_train y_test old_model;;
  mret (X_train, X_test, y_train, y_test, old_model).

Definition rf_param_grid : list (string * list pval) :=
  [("n_estimators", [PInt 100; PInt 200]);
   ("max_depth", [PNone; PInt 10; PInt 20]);
   ("min_samples_leaf", [PInt 1; PInt 2; PInt 4])].

Definition log_reg_param_grid : list (string * list pval) :=
  [("C", [PReal (1 # 10); PInt 1; PInt 5; PInt 10]);
   ("penalty", [PStr "l2"]);
   ("solver", [PStr "lbfgs"])].

Definition rf_grid_search : GridSearchCV := {|
  estimator := default_model;
  param_grid := rf_param_grid;
  cv := 3;
  scoring := Accuracy;
  n_jobs := -1
|}.

Definition log_reg_grid_search : GridSearchCV := {|
  estimator := Model LogisticRegression [("max_iter", PInt 300)] None;
  param_grid := log_reg_param_grid;
  cv := 3;
  scoring := Accuracy;
  n_jobs := -1
|}.

(** Section 4 (lines 177-207): the two searches on the training
    partition. *)
Definition run_rf_grid_search (X_train y_train : pyobj) : M search_result :=
  r ← GridSearchCV_fit rf_grid_search X_train y_train;
  print (MsgBestParams (best_params_ r));;
  print (MsgBestCVAccuracy (best_score_ r));;
  mret r.

Definition run_log_reg_grid_search (X_train y_train : pyobj)
    : M search_result :=
  r ← GridSearchCV_fit log_reg_grid_search X_train y_train;
  print (MsgLogRegBestParams (best_params_ r));;
  print (MsgLogRegBestCVAccuracy (best_score_ r));;
  mret r.

(** Sections 5 and 6 (lines 216-240): compare on the held-out set, save if
    not worse. *)
Definition compare_and_persist (old_model best_estimator X_test y_test : pyobj)
    : M unit :=
  old_pred ← lift (predict old_model X_test);
  old_test_acc ← lift (accuracy_score y_test old_pred);
  new_pred ← lift (predict best_estimator X_test);
  new_test_acc ← lift (accuracy_score y_test new_pred);
  print (MsgComparison old_test_acc new_test_acc);;
  if pyfloat_ge new_test_acc old_test_acc then
    print MsgSavingNewBest;;
    joblib_dump write_error best_estimator best_model_path
  else
    print MsgKeepingOld.

(** The whole notebook, cell after cell. *)
Definition notebook : M unit :=
  '(X_train, X_test, y_train, y_test, old_model) ← load_existing;
  rf ← run_rf_grid_search X_train y_train;
  _ ← run_log_reg_grid_search X_train y_train;
  compare_and_persist old_model (Estimator (best_estimator_ rf)) X_test y_test.

End Sklearn.

(** ** Events and values of a run *)

(** Every event [m] appends satisfies [P]. *)
Definition emits {A} (P : event → Prop) (m : M A) : Prop :=
  ∀ w, ∃ evs, trace (m w).2 = (trace w ++ evs)%list ∧ Forall P evs.

(** [e] is a write to the store. *)
Definition is_dump (e : event) : Prop :=
  match e with Dumped _ _ => True | _ => False end.

(** [e] is not a fit, or a fit on part of the training set [(X, y)]. *)
Definition fits_within (X y : pyobj) (e : event) : Prop :=
  match e with
  | Fitted _ _ d => ∃ d0, indexable X y = Returns d0 ∧ d `sublist_of` d0
  | _ => True
  end.

(** An event of the cells before the save: a message, or a fit on part of
    the training set [(X, y)]; never a dump. *)
Definition training_event (X y : pyobj) (e : event) : Prop :=
  match e with
  | Printed _ => True
  | Fitted _ _ d => ∃ d0, indexable X y = Returns d0 ∧ d `sublist_of` d0
  | Dumped _ _ => False
  end.

(** The value of [m] does not depend on the world it runs in. *)
Definition value_stable {A} (m : M A) : Prop :=
  ∀ w1 w2, (m w1).1 = (m w2).1.

(** A model that is fitted once the guard has run: fitted already, or a
    forest (which the guard fits). *)
Definition usable (o : pyobj) : Prop :=
  match o with
  | Estimator m => is_Some (m_fitted m) ∨ m_class m = RandomForestClassifier
  | _ => False
  end.

(** ** A small instance of the library, to run the notebook on *)

Module Toy.

(** An estimator that answers the label of its first training sample. *)
Definition predict_row (c : estimator_class) (p : params) (d : dataset)
    (r : row) : label :=
  match d with
  | [] => 0%Z
  | (_, l) :: _ => l
  end.

Definition draw_feature (g : Z) (a : classification_args) (i j : nat)
    : float64 :=
  (Z.of_nat (i * 10 + j) + g)%Z.

Definition draw_label (g : Z) (a : classification_args) (i : nat) : label :=
  if decide (i `mod` 9 < 5) then 0%Z else 1%Z.

Definition rng_key (seed : Z) (s : stream) (i : Z) : Z :=
  ((i * 7919 + seed * 31
    + match s with
      | TieBreak => 1
      | ClassShuffle c => c
      | TrainOrder => 5
      | TestOrder => 7
      end) `mod` 101)%Z.

(** The global generator in some state, and a file system that accepts
    every write. *)
Definition np_random : Z := 7.
Definition write_error (path : string) : option exn := None.

(** A file system without the directory [/dbfs/FileStore]. *)
Definition no_directory (path : string) : option exn :=
  Some (FileNotFoundError path).

Definition empty_world : world := World ∅ [].

(** A store with a small data set and no model. *)
Definition small_store : gmap string file :=
  {[ X_train_path := Readable (NdArray [[1]; [2]; [3]; [4]]%Z);
     X_test_path := Readable (NdArray [[5]; [6]]%Z);
     y_train_path := Readable (Labels [0; 1; 0; 1]%Z);
     y_test_path := Readable (Labels [0; 1]%Z) ]}.

(** The same store without the test labels. *)
Definition partial_store : gmap string file := delete y_test_path small_store.

Definition always_0 : model :=
  Model (OtherEstimator false) [] (Some [([1%Z], 0%Z)]).

Definition always_1 : model :=
  Model RandomForestClassifier [] (Some [([1%Z], 1%Z)]).

(** The small store with a logistic regression saved before fitting. *)
Definition unfitted_logreg : model := Model LogisticRegression [] None.
Definition logreg_store : gmap string file :=
  <[best_model_path := Readable (Estimator unfitted_logreg)]> small_store.

(** The small store with a forest saved before fitting. *)
Definition unfitted_forest : model :=
  Model RandomForestClassifier [("n_estimators", PInt 7)] None.
Definition forest_store : gmap string file :=
  <[best_model_path := Readable (Estimator unfitted_forest)]> small_store.

(** Three training rows and two training labels. *)
Definition ragged_store : gmap string file :=
  {[ X_train_path := Readable (NdArray [[1]; [2]; [3]]%Z);
     X_test_path := Readable (NdArray [[5]; [6]]%Z);
     y_train_path := Readable (Labels [0; 1]%Z);
     y_test_path := Readable (Labels [0; 1]%Z) ]}.

(** The small store with a fitted model at the best-model path. *)
Definition incumbent_store : gmap string file :=
  <[best_model_path := Readable (Estimator always_0)]> small_store.

(** The small store with a test array of two columns. *)
Definition wide_test_store : gmap string file :=
  <[X_test_path := Readable (NdArray [[5; 6]; [7; 8]]%Z)]> small_store.

(** A forest fitted on samples of two features. *)
Definition two_features : model :=
  Model RandomForestClassifier [] (Some [([1; 2], 1)]%Z).

(** A store whose first data file does not unpickle. *)
Definition broken_store : gmap string file :=
  {[ X_train_path := Corrupt BadPickle ]}.

End Toy.

(** * Proofs *)

Ltac monad_unfold :=
  unfold mbind, M_bind, bind, mret, M_ret, ret, lift, raise, print, emit,
    joblib_dump, try_except, np_load, joblib_load, load_file in *.

Ltac in_paths :=
  unfold dataset_paths;
  repeat first [apply list_elem_of_here | apply list_elem_of_further].

(** ** Sums over lists *)

Lemma sum_list_with_add {A} (f g : A → nat) l :
  sum_list_with (λ x, f x + g x) l = sum_list_with f l + sum_list_with g l.
Proof. induction l as [|x l IH]; simpl; lia. Qed.

Lemma sum_list_with_indicator {A} (P : A → Prop) `{∀ x, Decision (P x)} l :
  sum_list_with (λ x, if decide (P x) then 1 else 0) l = length (filter P l).
Proof.
  induction l as [|x l IH]; [done|]. rewrite filter_cons. simpl.
  destruct (decide (P x)); simpl; lia.
Qed.

Lemma sum_list_with_le_const {A} (f : A → nat) l b :
  (∀ x, x ∈ l → f x ≤ b) → sum_list_with f l ≤ length l * b.
Proof.
  induction l as [|x l IH]; intros Hb; simpl; [lia|].
  pose proof (Hb x (list_elem_of_here _ _)) as Hx.
  assert (sum_list_with f l ≤ length l * b) by (apply IH; intros; apply Hb; by right).
  lia.
Qed.

Lemma sum_list_with_zero {A} (f : A → nat) l :
  (∀ x, x ∈ l → f x = 0) → sum_list_with f l = 0.
Proof.
  intros Hz. pose proof (sum_list_with_le_const f l 0) as Hle.
  assert (sum_list_with f l ≤ length l * 0) by (apply Hle; intros x Hx; rewrite (Hz x Hx); lia).
  lia.
Qed.

Lemma sum_list_with_ext_in {A} (f g : A → nat) l :
  (∀ x, x ∈ l → f x = g x) → sum_list_with f l = sum_list_with g l.
Proof.
  induction l as [|x l IH]; intros Hfg; simpl; [done|].
  rewrite (Hfg x) by left. rewrite IH; [done|]. intros; apply Hfg; by right.
Qed.

Lemma sum_list_with_only {A} (f : A → nat) l c :
  NoDup l → c ∈ l → (∀ x, x ∈ l → x ≠ c → f x = 0) → sum_list_with f l = f c.
Proof.
  induction 1 as [|x l Hx Hnd IH]; intros Hc Hz; [by apply elem_of_nil in Hc|].
  simpl. apply elem_of_cons in Hc as [->|Hc].
  - rewrite sum_list_with_zero; [lia|]. intros y Hy. apply Hz; [by right|].
    intros ->. done.
  - rewrite (Hz x); [|left|by intros ->]. rewrite IH; [done..|].
    intros y Hy. apply Hz. by right.
Qed.

Lemma length_list_bind {A B} (f : A → list B) l :
  length (l ≫= f) = sum_list_with (λ x, length (f x)) l.
Proof.
  induction l as [|x l IH]; [done|]. rewrite bind_cons, length_app. simpl. lia.
Qed.

Lemma filter_list_bind {A B} (P : B → Prop) `{∀ x, Decision (P x)}
    (f : A → list B) l :
  filter P (l ≫= f) = l ≫= (λ x, filter P (f x)).
Proof.
  induction l as [|x l IH]; [done|]. by rewrite !bind_cons, filter_app, IH.
Qed.

Lemma length_filter_NoDup_subseteq {A} `{EqDecision A} (k l : list A) :
  NoDup k → NoDup l → (∀ x, x ∈ k → x ∈ l) →
  length (filter (λ x, x ∈ k) l) = length k.
Proof.
  intros Hk Hl Hsub. apply Permutation_length, NoDup_Permutation; [|done|].
  - by apply NoDup_filter.
  - intros x. rewrite list_elem_of_filter. split; [by intros []|auto].
Qed.

(** ** The class allocation *)

Section approximate_mode.
Context (tie : label → Z) (classes : list label) (count : label → nat).
Context (n_draws : nat).

Let n := sum_list_with count classes.
Let quota (c : label) := count c * n_draws / n.
Let rem (c : label) := (count c * n_draws) `mod` n.
Let need := n_draws - sum_list_with quota classes.
Let ranked := merge_sort (remainder_order rem tie) classes.
Let bonus := take need ranked.

Hypothesis classes_NoDup : NoDup classes.
Hypothesis draws_le : n_draws ≤ n.

#[local] Instance remainder_order_total : Total (remainder_order rem tie).
Proof. intros a b. unfold remainder_order. lia. Qed.

#[local] Instance remainder_order_trans : Transitive (remainder_order rem tie).
Proof. intros a b c. unfold remainder_order. lia. Qed.

Lemma quota_rem_sum (l : list label) :
  n_draws * sum_list_with count l
  = n * sum_list_with quota l + sum_list_with rem l.
Proof.
  induction l as [|c l IH]; simpl; [lia|].
  pose proof (Nat.div_mod_eq (count c * n_draws) n) as Hc.
  fold (quota c) (rem c) in Hc. nia.
Qed.

Lemma need_rem_sum : need * n = sum_list_with rem classes.
Proof.
  pose proof (quota_rem_sum classes) as H. fold n in H.
  unfold need. nia.
Qed.

Lemma rem_lt c : 0 < n → rem c < n.
Proof. intros. apply Nat.mod_upper_bound. lia. Qed.

Lemma ranked_perm : ranked ≡ₚ classes.
Proof. apply merge_sort_Permutation. Qed.

Lemma need_le_classes : need ≤ length classes.
Proof.
  destruct (decide (n = 0)) as [Hn|Hn]; [unfold need; lia|].
  pose proof need_rem_sum as Hs.
  assert (sum_list_with rem classes ≤ length classes * (n - 1)) as Hb.
  { apply sum_list_with_le_const. intros c _. pose proof (rem_lt c). lia. }
  nia.
Qed.

Lemma length_bonus : length bonus = need.
Proof.
  unfold bonus. rewrite length_take, ranked_perm.
  pose proof need_le_classes. lia.
Qed.

Lemma bonus_NoDup : NoDup bonus.
Proof.
  eapply sublist_NoDup; [|apply sublist_take]. by rewrite ranked_perm.
Qed.

Lemma bonus_classes c : c ∈ bonus → c ∈ classes.
Proof.
  intros Hc. rewrite <- ranked_perm.
  eapply elem_of_sublist; [done|apply sublist_take].
Qed.

Lemma bonus_rem_pos c : c ∈ bonus → 0 < rem c.
Proof.
  intros Hc. apply elem_of_take in Hc as (i & Hi & Hlt).
  destruct (decide (rem c = 0)) as [Hz|]; [exfalso|lia].
  assert (0 < n) as Hn by (unfold need in Hlt; lia).
  pose proof (StronglySorted_merge_sort (remainder_order rem tie) classes)
    as Hsorted. fold ranked in Hsorted.
  rewrite <- (take_drop_middle ranked i c Hi) in Hsorted.
  apply StronglySorted_app in Hsorted as (_ & _ & Htail).
  apply StronglySorted_cons in Htail as [Htail _].
  assert (sum_list_with rem (drop (S i) ranked) = 0) as Hdrop.
  { apply sum_list_with_zero. intros x Hx.
    rewrite Forall_forall in Htail. specialize (Htail x Hx).
    unfold remainder_order in Htail. lia. }
  assert (sum_list_with rem (take i ranked) ≤ i * (n - 1)) as Htake.
  { etrans; [apply sum_list_with_le_const|].
    - intros x _. pose proof (rem_lt x Hn) as Hx.
      apply Nat.lt_le_pred in Hx. exact Hx.
    - rewrite length_take. replace (Nat.pred n) with (n - 1) by lia. nia. }
  pose proof need_rem_sum as Hs.
  rewrite <- ranked_perm, <- (take_drop_middle ranked i c Hi) in Hs.
  rewrite sum_list_with_app in Hs. simpl in Hs. nia.
Qed.

(** The allocations add up to the number of draws. *)
Lemma approximate_mode_sum :
  sum_list_with (approximate_mode tie classes count n_draws) classes = n_draws.
Proof.
  unfold approximate_mode. fold n quota rem need ranked bonus.
  rewrite sum_list_with_add, (sum_list_with_indicator (λ c, c ∈ bonus)).
  rewrite length_filter_NoDup_subseteq;
    [|apply bonus_NoDup|done|apply bonus_classes].
  rewrite length_bonus. unfold need.
  pose proof (quota_rem_sum classes) as H. fold n in H.
  change (sum_list_with quota classes
          + (n_draws - sum_list_with quota classes) = n_draws).
  destruct (decide (n = 0)) as [Hn|Hn]; [|nia].
  rewrite (sum_list_with_zero quota); [lia|].
  intros c _. unfold quota. by rewrite Hn.
Qed.

(** Every class gets the floor or the ceiling of its proportional share. *)
Lemma approximate_mode_within_one c :
  0 < n →
  n * approximate_mode tie classes count n_draws c < count c * n_draws + n ∧
  count c * n_draws < n * approximate_mode tie classes count n_draws c + n.
Proof.
  intros Hn.
  change (n * (quota c + (if decide (c ∈ bonus) then 1 else 0))
            < count c * n_draws + n ∧
          count c * n_draws
            < n * (quota c + (if decide (c ∈ bonus) then 1 else 0)) + n).
  pose proof (Nat.div_mod_eq (count c * n_draws) n) as Hc.
  change (count c * n_draws = n * quota c + rem c) in Hc.
  pose proof (rem_lt c Hn) as Hlt.
  destruct (decide (c ∈ bonus)) as [Hb|_]; [apply bonus_rem_pos in Hb|];
    generalize dependent (quota c); generalize dependent (rem c);
    intros; nia.
Qed.

(** No class is asked for more samples than it has. *)
Lemma approximate_mode_le_count c :
  c ∈ classes → approximate_mode tie classes count n_draws c ≤ count c.
Proof.
  intros Hin.
  destruct (decide (n = 0)) as [Hn|Hn].
  { change (quota c + (if decide (c ∈ bonus) then 1 else 0) ≤ count c).
    assert (need = 0) as Hneed by (unfold need; lia).
    unfold bonus. rewrite Hneed, take_0.
    rewrite decide_False by apply not_elem_of_nil.
    unfold quota. rewrite Hn. simpl. lia. }
  pose proof (approximate_mode_within_one c ltac:(lia)) as [H1 _].
  assert (count c * n_draws ≤ count c * n) by nia.
  nia.
Qed.
End approximate_mode.

(** ** Class counts *)

Lemma class_count_cons (y : list label) (l c : label) :
  class_count (l :: y) c = (if decide (l = c) then 1 else 0) + class_count y c.
Proof.
  unfold class_count. rewrite filter_cons. destruct (decide (l = c)); done.
Qed.

Lemma sum_class_count (classes y : list label) :
  NoDup classes → (∀ l, l ∈ y → l ∈ classes) →
  sum_list_with (class_count y) classes = length y.
Proof.
  intros Hnd. induction y as [|l y IH]; intros Hin.
  - apply sum_list_with_zero. done.
  - rewrite (sum_list_with_ext_in _
      (λ c, (if decide (l = c) then 1 else 0) + class_count y c))
      by (intros; apply class_count_cons).
    rewrite sum_list_with_add, IH by (intros; apply Hin; by right).
    rewrite (sum_list_with_only _ _ l); [|done|apply Hin; left|].
    + rewrite decide_True by done. done.
    + intros x _ Hx. by rewrite decide_False.
Qed.

Lemma unique_labels_NoDup y : NoDup (unique_labels y).
Proof.
  unfold unique_labels. rewrite merge_sort_Permutation. apply NoDup_remove_dups.
Qed.

Lemma elem_of_unique_labels y c : c ∈ unique_labels y ↔ c ∈ y.
Proof.
  unfold unique_labels. rewrite merge_sort_Permutation. apply elem_of_remove_dups.
Qed.

Lemma class_count_absent y c : c ∉ y → class_count y c = 0.
Proof.
  intros Hc. unfold class_count.
  destruct (filter _ y) as [|x l] eqn:Hf; [done|].
  assert (x ∈ filter (λ l, l = c) y) as Hx by (rewrite Hf; left).
  apply list_elem_of_filter in Hx as [-> ?]. done.
Qed.

(** ** Indexed samples and their labels *)

Definition sample_label (d : nat * (row * label)) : label := d.2.2.

Lemma class_count_labels (l : list (nat * (row * label))) c :
  class_count (l.*2.*2) c = length (filter (λ d, d.2.2 = c) l).
Proof.
  unfold class_count. induction l as [|d l IH]; [done|].
  rewrite !fmap_cons, !filter_cons. destruct (decide _); simpl; by rewrite IH.
Qed.

Lemma labels_imap_index {A} (f : nat → nat) (l : list A) :
  (imap (λ i d, (f i, d)) l).*2 = l.
Proof.
  revert f. induction l as [|d l IH]; intros f; [done|].
  rewrite imap_cons, fmap_cons. simpl. f_equal. apply (IH (f ∘ S)).
Qed.

Lemma length_members (X : list row) (y : list label) c :
  length X = length y →
  length (filter (λ d : nat * (row * label), d.2.2 = c)
            (imap (λ i d, (i, d)) (zip X y))) = class_count y c.
Proof.
  intros Hlen. rewrite <- class_count_labels.
  rewrite (labels_imap_index id), snd_zip by lia. done.
Qed.

Lemma permute_perm {A} key (l : list (nat * A)) : permute key l ≡ₚ l.
Proof. apply merge_sort_Permutation. Qed.

Lemma filter_all {A} (P : A → Prop) `{∀ x, Decision (P x)} (l : list A) :
  (∀ x, x ∈ l → P x) → filter P l = l.
Proof.
  induction l as [|x l IH]; intros HP; [done|].
  rewrite filter_cons_True by (apply HP; left).
  f_equal. apply IH. intros; apply HP; by right.
Qed.

Lemma filter_none {A} (P : A → Prop) `{∀ x, Decision (P x)} (l : list A) :
  (∀ x, x ∈ l → ¬ P x) → filter P l = [].
Proof.
  induction l as [|x l IH]; intros HP; [done|].
  rewrite filter_cons_False by (apply HP; left).
  apply IH. intros; apply HP; by right.
Qed.

(** Labels of a shuffled concatenation of per-class parts. *)
Lemma class_count_parts key (classes : list label)
    (parts : label → list (nat * (row * label))) c :
  NoDup classes →
  (∀ c' d, d ∈ parts c' → d.2.2 = c') →
  c ∈ classes →
  class_count ((permute key (classes ≫= parts)).*2.*2) c = length (parts c).
Proof.
  intros Hnd Hlab Hc. rewrite class_count_labels, permute_perm.
  rewrite filter_list_bind, length_list_bind.
  rewrite (sum_list_with_only _ _ c); [|done..|].
  - rewrite filter_all; [done|]. intros d Hd. by apply Hlab.
  - intros c' _ Hne. rewrite filter_none; [done|].
    intros d Hd. rewrite (Hlab c' d Hd). done.
Qed.

Lemma length_parts key (classes : list label)
    (parts : label → list (nat * (row * label))) :
  length (permute key (classes ≫= parts))
  = sum_list_with (λ c, length (parts c)) classes.
Proof. by rewrite permute_perm, length_list_bind. Qed.

Section split.
Context (rng_key : Z → stream → Z → Z) (np_random : Z).
Context (X : list row) (y : list label) (test_size : Q)
  (random_state : option Z).
Hypothesis same_length : length X = length y.

Let g := check_random_state np_random random_state.
Let n := length y.
Let n_test := Z.to_nat (Qceiling (test_size * inject_Z (Z.of_nat n))).
Let n_train := n - n_test.
Let classes := unique_labels y.
Let n_i := approximate_mode (rng_key g TieBreak) classes
             (class_count y) n_train.
Let data := imap (λ i d, (i, d)) (zip X y).
Let shuffled (c : label) :=
  permute (rng_key g (ClassShuffle c))
          (filter (λ d : nat * (row * label), d.2.2 = c) data).

Let train := permute (rng_key g TrainOrder)
               (classes ≫= λ c, take (n_i c) (shuffled c)).
Let test := permute (rng_key g TestOrder)
              (classes ≫= λ c, drop (n_i c) (shuffled c)).

Lemma train_test_split_unfold :
  train_test_split rng_key np_random X y test_size random_state
  = (train.*2.*1, test.*2.*1, train.*2.*2, test.*2.*2).
Proof. reflexivity. Qed.

Lemma sum_counts : sum_list_with (class_count y) classes = n.
Proof.
  apply sum_class_count; [apply unique_labels_NoDup|].
  intros l Hl. by apply elem_of_unique_labels.
Qed.

Lemma n_i_sum : sum_list_with n_i classes = n_train.
Proof.
  apply approximate_mode_sum; [apply unique_labels_NoDup|].
  rewrite sum_counts. unfold n_train. lia.
Qed.

Lemma n_i_le c : c ∈ classes → n_i c ≤ class_count y c.
Proof.
  intros Hc. apply approximate_mode_le_count; [|done].
  rewrite sum_counts. unfold n_train. lia.
Qed.

Lemma length_shuffled c : length (shuffled c) = class_count y c.
Proof. unfold shuffled. rewrite permute_perm. by apply length_members. Qed.

Lemma shuffled_label c d : d ∈ shuffled c → d.2.2 = c.
Proof.
  unfold shuffled. rewrite permute_perm, list_elem_of_filter. by intros [].
Qed.

Lemma data_elem d : d ∈ data → d.2.1 ∈ X ∧ d.2.2 ∈ y.
Proof.
  intros Hd. assert (d.2 ∈ zip X y) as Hz.
  { rewrite <- (labels_imap_index id (zip X y)).
    by apply list_elem_of_fmap_2. }
  destruct d as [i [r l]]. simpl in *.
  split; [by eapply elem_of_zip_l|by eapply elem_of_zip_r].
Qed.

Lemma shuffled_elem c d : d ∈ shuffled c → d ∈ data.
Proof.
  unfold shuffled. rewrite permute_perm, list_elem_of_filter. by intros [].
Qed.

Lemma train_elem d : d ∈ train → d ∈ data.
Proof.
  unfold train. rewrite permute_perm, list_elem_of_bind.
  intros (c & Hd & _). apply (shuffled_elem c).
  eapply elem_of_sublist; [done|apply sublist_take].
Qed.

Lemma test_elem d : d ∈ test → d ∈ data.
Proof.
  unfold test. rewrite permute_perm, list_elem_of_bind.
  intros (c & Hd & _). apply (shuffled_elem c).
  eapply elem_of_sublist; [done|apply sublist_drop].
Qed.

Lemma part_labels (part : list (nat * (row * label))) c :
  (∀ d, d ∈ part → d ∈ data) → c ∉ y → class_count (part.*2.*2) c = 0.
Proof.
  intros Hsub Hc. apply class_count_absent. intros Hin.
  apply list_elem_of_fmap in Hin as (p & -> & Hp).
  apply list_elem_of_fmap in Hp as (d & -> & Hd).
  apply Hsub, data_elem in Hd as [_ Hy]. done.
Qed.

Lemma part_rows (part : list (nat * (row * label))) :
  (∀ d, d ∈ part → d ∈ data) → Forall (λ r, r ∈ X) (part.*2.*1).
Proof.
  intros Hsub. apply Forall_forall. intros r Hin.
  apply list_elem_of_fmap in Hin as (p & -> & Hp).
  apply list_elem_of_fmap in Hp as (d & -> & Hd).
  by apply Hsub, data_elem in Hd as [HX _].
Qed.

Lemma n_i_absent c : c ∉ y → n_i c = 0.
Proof.
  intros Hc. unfold n_i, approximate_mode.
  rewrite (class_count_absent y c Hc), Nat.mul_0_l, Nat.Div0.div_0_l.
  rewrite decide_False; [done|].
  intros Hb. apply elem_of_take in Hb as (i & Hi & _).
  apply list_elem_of_lookup_2 in Hi.
  rewrite (merge_sort_Permutation (remainder_order _ _)) in Hi.
  unfold classes in Hi. by apply (proj1 (elem_of_unique_labels _ _)) in Hi.
Qed.

Lemma train_test_split_counts :
  let '(X_train, X_test, y_train, y_test) :=
    train_test_split rng_key np_random X y test_size random_state in
  length X_train = n_train ∧ length y_train = n_train ∧
  length X_test = n - n_train ∧ length y_test = n - n_train ∧
  Forall (λ r, r ∈ X) X_train ∧ Forall (λ r, r ∈ X) X_test ∧
  ∀ c, class_count y_train c = n_i c ∧
       class_count y_test c = class_count y c - n_i c.
Proof.
  rewrite train_test_split_unfold. unfold train, test.
  assert (sum_list_with (λ c, length (take (n_i c) (shuffled c))) classes
          = n_train) as Htrain.
  { rewrite <- n_i_sum. apply sum_list_with_ext_in. intros c Hc.
    rewrite length_take, length_shuffled. pose proof (n_i_le c Hc). lia. }
  assert (sum_list_with (λ c, length (drop (n_i c) (shuffled c))) classes
          = n - n_train) as Htest.
  { pose proof sum_counts as Hs. pose proof n_i_sum as Hi.
    rewrite <- Hs, <- Hi.
    rewrite (sum_list_with_ext_in (class_count y)
      (λ c, length (drop (n_i c) (shuffled c)) + n_i c)).
    - rewrite sum_list_with_add. lia.
    - intros c Hc. rewrite length_drop, length_shuffled.
      pose proof (n_i_le c Hc). lia. }
  rewrite !length_fmap, !length_parts, Htrain, Htest.
  do 4 (split; [done|]).
  split; [apply part_rows, train_elem|].
  split; [apply part_rows, test_elem|].
  intros c. destruct (decide (c ∈ y)) as [Hc|Hc].
  2:{ rewrite (part_labels train), (part_labels test), n_i_absent,
        class_count_absent; auto using train_elem, test_elem. }
  split.
  - rewrite class_count_parts; [|apply unique_labels_NoDup| |by apply elem_of_unique_labels].
    + rewrite length_take, length_shuffled.
      pose proof (n_i_le c ltac:(by apply elem_of_unique_labels)). lia.
    + intros c' d Hd. apply shuffled_label.
      eapply elem_of_sublist; [done|apply sublist_take].
  - rewrite class_count_parts; [|apply unique_labels_NoDup| |by apply elem_of_unique_labels].
    + by rewrite length_drop, length_shuffled.
    + intros c' d Hd. apply shuffled_label.
      eapply elem_of_sublist; [done|apply sublist_drop].
Qed.
End split.


(** ** The two loaders *)

Lemma safe_load_model_run (path : string) (default : pyobj) w :
  safe_load_model path default w =
    match fs w !! path with
    | Some (Readable o) =>
        (Returns o, World (fs w) (trace w ++ [Printed (MsgLoadedModel path)]))
    | Some (Corrupt c) =>
        (Returns default,
         World (fs w)
               (trace w ++ [Printed (MsgCouldNotLoad path (exn_of_corruption c))]))
    | None =>
        (Returns default,
         World (fs w)
               (trace w ++ [Printed (MsgCouldNotLoad path (FileNotFoundError path))]))
    end.
Proof.
  unfold safe_load_model. monad_unfold.
  destruct (fs w !! path) as [[o|c]|]; done.
Qed.

Section Loaders.
Variable draw_feature : Z → classification_args → nat → nat → float64.
Variable draw_label : Z → classification_args → nat → label.
Variable rng_key : Z → stream → Z → Z.
Variable np_random : Z.
Variable write_error : string → option exn.

Local Abbreviation load_data :=
  (load_or_create_demo_data draw_feature draw_label rng_key np_random).
Local Abbreviation synthetic :=
  (synthetic_demo_data draw_feature draw_label rng_key np_random).
Local Abbreviation generate := (make_classification draw_feature draw_label np_random).

Lemma load_or_create_demo_data_run (random_state : Z) w :
  load_data random_state w =
    match first_failure (fs w) dataset_paths with
    | None =>
        (Returns (stored (fs w) X_train_path, stored (fs w) X_test_path,
                  stored (fs w) y_train_path, stored (fs w) y_test_path),
         World (fs w) (trace w ++ [Printed MsgLoadedData]))
    | Some (Absent _) =>
        (Returns (synthetic random_state),
         World (fs w) (trace w ++ [Printed MsgFilesNotFound]))
    | Some (Malformed _ c) => (Raises (exn_of_corruption c), w)
    end.
Proof.
  unfold load_or_create_demo_data, dataset_paths, first_failure, stored.
  monad_unfold.
  destruct (fs w !! X_train_path) as [[o1|c1]|]; [|by destruct c1|done].
  destruct (fs w !! X_test_path) as [[o2|c2]|]; [|by destruct c2|done].
  destruct (fs w !! y_train_path) as [[o3|c3]|]; [|by destruct c3|done].
  destruct (fs w !! y_test_path) as [[o4|c4]|]; [|by destruct c4|done].
  done.
Qed.


Lemma make_classification_shape (a : classification_args) :
  length (generate a).1 = n_samples a ∧
  length (generate a).2 = n_samples a ∧
  Forall (λ r, length r = n_features a) (generate a).1.
Proof.
  unfold make_classification. simpl.
  rewrite !length_fmap, !length_seq. split_and!; [done..|].
  apply Forall_fmap, Forall_forall. intros i _. simpl.
  by rewrite length_fmap, length_seq.
Qed.

Lemma demo_test_size :
  Z.to_nat (Qceiling ((2 # 10) * inject_Z (Z.of_nat 400))) = 80.
Proof. reflexivity. Qed.

(** Sizes and class counts of the split of the synthetic data. *)
Lemma synthetic_split (random_state : Z) :
  ∃ X_train X_test y_train y_test,
    train_test_split rng_key np_random (generate (demo_args random_state)).1
      (generate (demo_args random_state)).2 (2 # 10) (Some random_state)
    = (X_train, X_test, y_train, y_test) ∧
    synthetic random_state
    = (NdArray X_train, NdArray X_test, Labels y_train, Labels y_test) ∧
    length X_train = 320 ∧ length y_train = 320 ∧
    length X_test = 80 ∧ length y_test = 80 ∧
    Forall (λ r, length r = 10) X_train ∧
    Forall (λ r, length r = 10) X_test ∧
    ∀ c,
      let n_c := class_count (generate (demo_args random_state)).2 c in
      class_count y_train c + class_count y_test c = n_c ∧
      400 * class_count y_train c < 320 * n_c + 400 ∧
      320 * n_c < 400 * class_count y_train c + 400.
Proof.
  pose proof (make_classification_shape (demo_args random_state))
    as (HX & Hy & Hrows).
  unfold synthetic_demo_data.
  destruct (generate (demo_args random_state)) as [X y] eqn:Hgen.
  simpl in HX, Hy, Hrows. cbn -[train_test_split class_count Nat.mul Nat.add].
  pose proof (train_test_split_counts rng_key np_random X y (2 # 10)
                (Some random_state) ltac:(congruence)) as Hsplit.
  destruct (train_test_split rng_key np_random X y (2 # 10)
              (Some random_state))
    as [[[X_train X_test] y_train] y_test].
  rewrite Hy, demo_test_size in Hsplit.
  destruct Hsplit as (H1 & H2 & H3 & H4 & H5 & H6 & Hc).
  exists X_train, X_test, y_train, y_test.
  split_and!; try done.
  - eapply Forall_impl; [exact H5|]. intros r Hr. simpl.
    rewrite Forall_forall in Hrows. by apply Hrows.
  - eapply Forall_impl; [exact H6|]. intros r Hr. simpl.
    rewrite Forall_forall in Hrows. by apply Hrows.
  - intros c. destruct (Hc c) as [Htr Hte].
    cbn [check_random_state] in Htr, Hte.
    set (alloc := approximate_mode _ _ _ _ c) in *.
    assert (sum_list_with (class_count y) (unique_labels y) = 400) as Hsum.
    { rewrite <- Hy. apply sum_class_count; [apply unique_labels_NoDup|].
      intros l Hl. by apply elem_of_unique_labels. }
    pose proof (approximate_mode_le_count (rng_key random_state TieBreak)
                  (unique_labels y) (class_count y) (400 - 80)
                  ltac:(rewrite Hsum; lia)) as Hle.
    pose proof (approximate_mode_within_one (rng_key random_state TieBreak)
                  (unique_labels y) (class_count y) (400 - 80)
                  ltac:(rewrite Hsum; lia) c ltac:(rewrite Hsum; lia)) as Hw.
    rewrite Hsum in Hw. fold alloc in Hw.
    destruct (decide (c ∈ y)) as [Hin|Hout].
    + specialize (Hle c ltac:(by apply elem_of_unique_labels)).
      fold alloc in Hle. cbv zeta. lia.
    + rewrite (class_count_absent y c Hout) in *. cbv zeta. lia.
Qed.

End Loaders.

(** ** Running a computation that only logs *)

Lemma logs_ret {A} (a : A) : logs (mret a) a [].
Proof. intros [s t]. monad_unfold. simpl. by rewrite app_nil_r. Qed.

Lemma logs_emit e : logs (emit e) tt [e].
Proof. by intros w. Qed.

Lemma logs_bind {A B} (m : M A) (k : A → M B) a b evs1 evs2 :
  logs m a evs1 → logs (k a) b evs2 → logs (m ≫= k) b (evs1 ++ evs2).
Proof.
  intros Hm Hk w. monad_unfold. rewrite Hm, Hk. simpl. by rewrite <- app_assoc.
Qed.

Lemma logs_mapM {A B} (f : A → M B) (g : A → B) (ev : A → list event) l :
  (∀ x, x ∈ l → logs (f x) (g x) (ev x)) →
  logs (mapM f l) (g <$> l) (l ≫= ev).
Proof.
  induction l as [|x l IH]; intros Hf.
  - apply logs_ret.
  - change (mapM f (x :: l))
      with (f x ≫= λ y, mapM f l ≫= λ k, mret (y :: k)).
    rewrite fmap_cons, bind_cons.
    apply (logs_bind _ _ (g x)); [apply Hf; left|].
    rewrite <- (app_nil_r (l ≫= ev)).
    apply (logs_bind _ _ (g <$> l)); [apply IH; intros; apply Hf; by right|].
    apply logs_ret.
Qed.

(** ** Best candidate *)

Lemma better_fold (l : list (params * Q)) (a : params * Q) :
  ∃ b, foldl better (Some a) l = Some b ∧ b ∈ a :: l ∧
       ∀ x, x ∈ a :: l → (x.2 <= b.2)%Q.
Proof.
  revert a. induction l as [|y l IH]; intros a.
  - exists a. split_and!; [done|left|].
    intros x ->%list_elem_of_singleton. apply Qle_refl.
  - simpl. destruct (Qle_bool y.2 a.2) eqn:Hle.
    + destruct (IH a) as (b & Hb & Hin & Hmax). exists b. split_and!; [done|..].
      * apply elem_of_cons in Hin as [->|Hin]; [left|right; by right].
      * intros x [->|[->|Hx]%elem_of_cons]%elem_of_cons.
        -- apply Hmax. left.
        -- apply Qle_bool_iff in Hle. eapply Qle_trans; [exact Hle|].
           apply Hmax. left.
        -- apply Hmax. by right.
    + destruct (IH y) as (b & Hb & Hin & Hmax). exists b. split_and!; [done|..].
      * by right.
      * intros x [->|Hx]%elem_of_cons; [|by apply Hmax].
        assert (a.2 <= y.2)%Q as Hay.
        { apply Qlt_le_weak, Qnot_le_lt. intros H%Qle_bool_iff. congruence. }
        eapply Qle_trans; [exact Hay|]. apply Hmax. left.
Qed.

Lemma best_of_spec (l : list (params * Q)) :
  l ≠ [] →
  ∃ b, best_of l = Some b ∧ b ∈ l ∧ ∀ x, x ∈ l → (x.2 <= b.2)%Q.
Proof.
  destruct l as [|a l]; [done|]. intros _. apply (better_fold l a).
Qed.

(** ** Folds *)

Lemma fold_train_sublist k (d : dataset) i : (fold k d i).1 `sublist_of` d.
Proof.
  unfold fold. simpl.
  set (start := i * (length d `div` k) + i `min` (length d `mod` k)).
  set (size := length d `div` k + _).
  rewrite <- (take_drop start d) at 3.
  apply sublist_app; [done|].
  rewrite <- (drop_drop d size start). apply sublist_drop.
Qed.

Section GridSearch.
Variable predict_row : estimator_class → params → dataset → row → label.

Local Abbreviation search := (GridSearchCV_fit predict_row).

Lemma fit_and_score_logs est f :
  logs (fit_and_score predict_row est f) (fold_score predict_row est f)
       [Fitted (m_class est) (m_params est) f.1].
Proof.
  unfold fit_and_score.
  apply (logs_bind _ _ tt _ [_] []); [apply logs_emit|apply logs_ret].
Qed.

Lemma evaluate_candidate_logs base folds p :
  logs (evaluate_candidate predict_row base folds p)
       (p, cv_score predict_row base folds p) (candidate_fits base folds p).
Proof.
  unfold evaluate_candidate, candidate_fits.
  rewrite <- (app_nil_r (folds ≫= _)).
  eapply logs_bind; [|apply logs_ret].
  apply logs_mapM. intros f _. apply fit_and_score_logs.
Qed.

Lemma GridSearchCV_fit_raises gs X y d w :
  indexable X y = Returns d →
  cv gs < 2 ∨ length d < cv gs ∨ param_grid gs = []
    ∨ ParameterGrid (param_grid gs) = [] →
  search gs X y w = (Raises ConfigurationError, w).
Proof.
  intros Hd Hbad. unfold GridSearchCV_fit. monad_unfold. rewrite Hd.
  by rewrite decide_True.
Qed.

Lemma GridSearchCV_fit_run gs X y d w :
  indexable X y = Returns d →
  2 ≤ cv gs → cv gs ≤ length d → param_grid gs ≠ [] →
  ParameterGrid (param_grid gs) ≠ [] →
  let folds := kfold (cv gs) d in
  let results :=
    (λ p, (p, cv_score predict_row (estimator gs) folds p))
      <$> ParameterGrid (param_grid gs) in
  ∃ p s,
    best_of results = Some (p, s) ∧
    search gs X y w =
      (Returns (SearchResult results p s
                  (Model (m_class (set_params (estimator gs) p))
                         (m_params (set_params (estimator gs) p)) (Some d))),
       World (fs w)
         (trace w
          ++ (ParameterGrid (param_grid gs)
                ≫= candidate_fits (estimator gs) folds)
          ++ [Fitted (m_class (set_params (estimator gs) p))
                     (m_params (set_params (estimator gs) p)) d])).
Proof.
  intros Hd Hcv Hn Hgrid Hcands folds results.
  destruct (best_of_spec results) as ([p s] & Hbest & _).
  { unfold results. by destruct (ParameterGrid (param_grid gs)). }
  exists p, s. split; [done|].
  pose proof (logs_mapM
    (evaluate_candidate predict_row (estimator gs) folds)
    (λ p, (p, cv_score predict_row (estimator gs) folds p))
    (candidate_fits (estimator gs) folds)
    (ParameterGrid (param_grid gs))
    (λ p _, evaluate_candidate_logs (estimator gs) folds p) w) as Hmap.
  unfold GridSearchCV_fit. monad_unfold. rewrite Hd.
  rewrite decide_False by (intros [?|[?|[?|?]]]; [lia|lia|done|done]).
  fold folds. rewrite Hmap. fold results. rewrite Hbest. simpl.
  by rewrite <- app_assoc.
Qed.

End GridSearch.

Section Notebook.
Variable predict_row : estimator_class → params → dataset → row → label.
Variable draw_feature : Z → classification_args → nat → nat → float64.
Variable draw_label : Z → classification_args → nat → label.
Variable rng_key : Z → stream → Z → Z.
Variable np_random : Z.
Variable write_error : string → option exn.

Local Abbreviation load_data :=
  (load_or_create_demo_data draw_feature draw_label rng_key np_random).
Local Abbreviation section_1 :=
  (load_existing predict_row draw_feature draw_label rng_key np_random).
Local Abbreviation accuracy_of := (test_accuracy predict_row).

Lemma load_data_fs random_state w :
  fs (load_data random_state w).2 = fs w.
Proof.
  rewrite load_or_create_demo_data_run.
  by destruct (first_failure _ _) as [[]|].
Qed.

Lemma fit_if_fresh_default X y :
  fit_if_fresh (Estimator default_model) X y = fit (Estimator default_model) X y.
Proof. reflexivity. Qed.

Lemma fit_if_fresh_fitted m X y :
  is_Some (m_fitted m) → fit_if_fresh (Estimator m) X y = mret (Estimator m).
Proof.
  intros Hm. unfold fit_if_fresh, hasattr_feature_importances,
    isinstance_RandomForestClassifier.
  destruct (m_class m); rewrite ?andb_false_r, ?bool_decide_true; done.
Qed.

Lemma fit_default_run X y w :
  fit (Estimator default_model) X y w =
    match indexable X y with
    | Returns (s :: d) =>
        (Returns (Estimator (Model RandomForestClassifier
                               (m_params default_model) (Some (s :: d)))),
         World (fs w)
               (trace w ++ [Fitted RandomForestClassifier
                              (m_params default_model) (s :: d)]))
    | Returns [] => (Raises ValueError, w)
    | Raises e => (Raises e, w)
    end.
Proof.
  unfold fit. monad_unfold. by destruct (indexable X y) as [[|s d]|].
Qed.

Lemma n_columns_width (k : nat) (X : list row) :
  has_width k X → X ≠ [] → n_columns X = k.
Proof. intros HX Hne. destruct X as [|r X]; [done|]. by inversion HX. Qed.

Lemma n_features_in_zip (X : list row) (y : list label) :
  length X = length y → n_features_in (zip X y) = n_columns X.
Proof. intros Hlen. unfold n_features_in. rewrite fst_zip; [done|lia]. Qed.

Lemma indexable_arrays (k : nat) (X : list row) (y : list label) :
  0 < k → has_width k X → length X = length y →
  indexable (NdArray X) (Labels y) = Returns (zip X y) ∧
  length (zip X y) = length X ∧
  (X ≠ [] → n_features_in (zip X y) = k).
Proof.
  intros Hk HX Hlen. unfold indexable. split_and!.
  - rewrite decide_True; [done|].
    destruct X as [|r X]; [split_and!; [done|by left|constructor]|].
    rewrite (n_columns_width k) by done. split_and!; [done|by right|done].
  - rewrite length_zip_with. lia.
  - intros Hne. by rewrite n_features_in_zip, (n_columns_width k).
Qed.

Lemma indexable_inv X y d :
  indexable X y = Returns d →
  ∃ rows ls, X = NdArray rows ∧ y = Labels ls ∧
             length rows = length ls ∧ d = zip rows ls ∧
             has_width (n_columns rows) rows ∧
             (rows = [] ∨ 0 < n_columns rows).
Proof.
  unfold indexable. destruct X as [rows| | |]; try done.
  destruct y as [|ls| |]; try done.
  destruct (decide _) as [(? & ? & ?)|]; [|done]. intros [= <-].
  by exists rows, ls.
Qed.

(** A fitted estimator that takes the width of [X] has an accuracy on
    [(X, y)]. *)
Lemma test_accuracy_fitted (m : model) (k : nat) (X : list row)
    (y : list label) :
  takes_width m k → 0 < k → has_width k X →
  X ≠ [] → length X = length y →
  ∃ q, accuracy_of (Estimator m) (NdArray X) (Labels y) = Returns (Finite q).
Proof.
  intros (d & Hd & <-) Hk Hw HX Hlen. unfold test_accuracy, predict.
  rewrite Hd. destruct X as [|r rows]; [done|].
  rewrite decide_True by done.
  unfold accuracy_score. rewrite length_fmap.
  destruct (decide _) as [_|Hne]; [|by rewrite Hlen in Hne].
  destruct y; [done|]. eauto.
Qed.

Lemma report_baseline_run (X_train X_test y_train y_test old_model : pyobj)
    a_train a_test w :
  accuracy_of old_model X_train y_train = Returns a_train →
  accuracy_of old_model X_test y_test = Returns a_test →
  report_baseline predict_row X_train X_test y_train y_test old_model w =
    (Returns tt,
     World (fs w)
           (trace w ++ [Printed (MsgModelType (type_of old_model));
                        Printed (MsgTrainAccuracy a_train);
                        Printed (MsgTestAccuracy a_test)])).
Proof.
  unfold test_accuracy, report_baseline. monad_unfold. intros H1 H2.
  destruct (predict predict_row old_model X_train) as [p1|]; [|done].
  rewrite H1.
  destruct (predict predict_row old_model X_test) as [p2|]; [|done].
  rewrite H2. simpl. by rewrite <- !app_assoc.
Qed.

(** C5.  On well-formed data (both partitions arrays of the same width,
    not empty, with as many labels as rows): when no model loads from the
    best-model path, the resolver hands back the fresh default forest,
    Section 1 fits it on the training partition (the fit is logged right
    after the resolver's message) and the accuracies it reports are those
    of the fitted forest; when a model loads that was fitted on data of
    that width, Section 1 logs no fit and reports the accuracies of the
    loaded model as it is. *)
Theorem fresh_default_fitted_loaded_kept
    (w w1 : world) (Xtr Xte : list row) (ytr yte : list label) (k : nat) :
  load_data 42 w
    = (Returns (NdArray Xtr, NdArray Xte, Labels ytr, Labels yte), w1) →
  0 < k → has_width k Xtr → has_width k Xte →
  Xtr ≠ [] → length Xtr = length ytr →
  Xte ≠ [] → length Xte = length yte →
  ((∀ o, fs w !! best_model_path ≠ Some (Readable o)) →
   let fitted := Estimator (Model RandomForestClassifier
                              (m_params default_model) (Some (zip Xtr ytr))) in
   ∃ e a_train a_test,
     accuracy_of fitted (NdArray Xtr) (Labels ytr) = Returns a_train ∧
     accuracy_of fitted (NdArray Xte) (Labels yte) = Returns a_test ∧
     section_1 w =
       (Returns (NdArray Xtr, NdArray Xte, Labels ytr, Labels yte, fitted),
        World (fs w)
          (trace w1 ++
             [Printed (MsgCouldNotLoad best_model_path e);
              Fitted RandomForestClassifier (m_params default_model)
                     (zip Xtr ytr);
              Printed (MsgModelType (Some RandomForestClassifier));
              Printed (MsgTrainAccuracy a_train);
              Printed (MsgTestAccuracy a_test)])))
  ∧
  (∀ m, fs w !! best_model_path = Some (Readable (Estimator m)) →
        takes_width m k →
   ∃ a_train a_test,
     accuracy_of (Estimator m) (NdArray Xtr) (Labels ytr) = Returns a_train ∧
     accuracy_of (Estimator m) (NdArray Xte) (Labels yte) = Returns a_test ∧
     section_1 w =
       (Returns (NdArray Xtr, NdArray Xte, Labels ytr, Labels yte, Estimator m),
        World (fs w)
          (trace w1 ++
             [Printed (MsgLoadedModel best_model_path);
              Printed (MsgModelType (Some (m_class m)));
              Printed (MsgTrainAccuracy a_train);
              Printed (MsgTestAccuracy a_test)]))).
Proof.
  intros Hload Hk Hwtr Hwte Htr Hltr Hte Hlte.
  assert (fs w1 = fs w) as Hfs.
  { pose proof (load_data_fs 42 w) as H. by rewrite Hload in H. }
  destruct (indexable_arrays k Xtr ytr Hk Hwtr Hltr) as (Hd & _ & Hfeat).
  specialize (Hfeat Htr).
  split.
  - intros Habsent fitted.
    assert (takes_width (Model RandomForestClassifier (m_params default_model)
                           (Some (zip Xtr ytr))) k) as Htakes.
    { by exists (zip Xtr ytr). }
    destruct (test_accuracy_fitted _ k Xtr ytr Htakes) as [a1 Ha1]; [done..|].
    destruct (test_accuracy_fitted _ k Xte yte Htakes) as [a2 Ha2]; [done..|].
    assert (∃ e, safe_load_model best_model_path (Estimator default_model) w1
                 = (Returns (Estimator default_model),
                    World (fs w1)
                      (trace w1 ++ [Printed (MsgCouldNotLoad best_model_path e)])))
      as [e Hsafe].
    { rewrite safe_load_model_run, Hfs.
      destruct (fs w !! best_model_path) as [[o|c]|] eqn:Hl; [|by eexists..].
      by destruct (Habsent o). }
    exists e, (Finite a1), (Finite a2). split_and!; [done..|].
    unfold load_existing.
    unfold mbind at 1, M_bind at 1, bind at 1. rewrite Hload.
    unfold mbind at 1, M_bind at 1, bind at 1. rewrite Hsafe.
    unfold mbind at 1, M_bind at 1, bind at 1.
    rewrite fit_if_fresh_default, fit_default_run, Hd.
    destruct (zip Xtr ytr) as [|s d] eqn:Hzip.
    { destruct Xtr; [done|]. destruct ytr; done. }
    unfold mbind at 1, M_bind at 1, bind at 1.
    erewrite report_baseline_run; [|exact Ha1|exact Ha2].
    unfold mret, M_ret, ret. simpl. rewrite Hfs. by rewrite <- !app_assoc.
  - intros m Hm Htakes.
    destruct (test_accuracy_fitted m k Xtr ytr) as [a1 Ha1]; [done..|].
    destruct (test_accuracy_fitted m k Xte yte) as [a2 Ha2]; [done..|].
    exists (Finite a1), (Finite a2). split_and!; [done..|].
    unfold load_existing.
    unfold mbind at 1, M_bind at 1, bind at 1. rewrite Hload.
    unfold mbind at 1, M_bind at 1, bind at 1.
    rewrite safe_load_model_run, Hfs, Hm.
    unfold mbind at 1, M_bind at 1, bind at 1.
    rewrite fit_if_fresh_fitted by (destruct Htakes as (d & -> & _); by eexists).
    unfold mret at 1, M_ret at 1, ret at 1.
    unfold mbind at 1, M_bind at 1, bind at 1.
    erewrite report_baseline_run; [|exact Ha1|exact Ha2].
    unfold mret, M_ret, ret. simpl. by rewrite <- !app_assoc.
Qed.

(** ** Compare and persist *)

Lemma compare_and_persist_run (old new X y : pyobj) (a_old a_new : pyfloat) w :
  accuracy_of old X y = Returns a_old →
  accuracy_of new X y = Returns a_new →
  compare_and_persist predict_row write_error old new X y w =
    if pyfloat_ge a_new a_old then
      match write_error best_model_path with
      | None =>
          (Returns tt,
           World (<[best_model_path := Readable new]> (fs w))
                 (trace w ++ [Printed (MsgComparison a_old a_new);
                              Printed MsgSavingNewBest;
                              Dumped best_model_path new]))
      | Some e =>
          (Raises e,
           World (fs w)
                 (trace w ++ [Printed (MsgComparison a_old a_new);
                              Printed MsgSavingNewBest]))
      end
    else
      (Returns tt,
       World (fs w)
             (trace w ++ [Printed (MsgComparison a_old a_new);
                          Printed MsgKeepingOld])).
Proof.
  unfold test_accuracy, compare_and_persist, joblib_dump. intros Ho Hn.
  monad_unfold.
  destruct (predict predict_row old X) as [po|]; [|done]. rewrite Ho.
  destruct (predict predict_row new X) as [pn|]; [|done]. rewrite Hn.
  destruct (pyfloat_ge a_new a_old); cbn; [|by rewrite <- !app_assoc].
  destruct (write_error best_model_path); by rewrite <- !app_assoc.
Qed.

Lemma compare_and_persist_raises (old new X y : pyobj) w :
  (∃ e, accuracy_of old X y = Raises e)
  ∨ (∃ e, accuracy_of new X y = Raises e) →
  ∃ e, compare_and_persist predict_row write_error old new X y w
       = (Raises e, w).
Proof.
  unfold test_accuracy, compare_and_persist. monad_unfold.
  intros [[e H]|[e H]].
  - destruct (predict predict_row old X); [rewrite H|]; eauto.
  - destruct (predict predict_row old X) as [po|]; [|eauto].
    destruct (accuracy_score y po); [|eauto].
    destruct (predict predict_row new X); [rewrite H|]; eauto.
Qed.

(** C1.  For two models fitted on data of the width of the held-out
    evaluation set (an array that is not empty, with as many labels as rows)
    and a best-model path that can be written, both test accuracies are
    defined, the step returns, and the candidate is dumped to the best-model
    path if and only if its accuracy is at least the incumbent's: on a tie
    the path holds the candidate afterwards, and when the candidate is
    strictly worse the store is the one the step started from. *)
Theorem persist_iff_not_worse (old new : model) (X_test : list row)
    (y_test : list label) (k : nat) (w : world) :
  takes_width old k → takes_width new k →
  0 < k → has_width k X_test →
  X_test ≠ [] → length X_test = length y_test →
  write_error best_model_path = None →
  ∃ a_old a_new : Q,
    accuracy_of (Estimator old) (NdArray X_test) (Labels y_test)
      = Returns (Finite a_old) ∧
    accuracy_of (Estimator new) (NdArray X_test) (Labels y_test)
      = Returns (Finite a_new) ∧
    let r := compare_and_persist predict_row write_error (Estimator old)
               (Estimator new) (NdArray X_test) (Labels y_test) w in
    r.1 = Returns tt ∧
    (Dumped best_model_path (Estimator new)
       ∈ drop (length (trace w)) (trace r.2) ↔ (a_old <= a_new)%Q) ∧
    ((a_old <= a_new)%Q →
       fs r.2 = <[best_model_path := Readable (Estimator new)]> (fs w)) ∧
    ((a_old == a_new)%Q →
       fs r.2 !! best_model_path = Some (Readable (Estimator new))) ∧
    (¬ (a_old <= a_new)%Q → fs r.2 = fs w).
Proof.
  intros Hold Hnew Hk Hw HX Hlen Hwrite.
  destruct (test_accuracy_fitted old k X_test y_test) as [a_old Ho]; [done..|].
  destruct (test_accuracy_fitted new k X_test y_test) as [a_new Hn]; [done..|].
  exists a_old, a_new. split_and!; [done..|].
  rewrite (compare_and_persist_run _ _ _ _ _ _ w Ho Hn), Hwrite.
  unfold pyfloat_ge. destruct (Qle_bool a_old a_new) eqn:Hle; cbn zeta.
  - apply Qle_bool_iff in Hle. simpl. rewrite drop_app_length.
    split_and!; try done.
    + split; [done|]. intros _. do 2 right. left.
    + intros _. apply lookup_insert_eq.
  - assert (¬ (a_old <= a_new)%Q) as Hnle.
    { intros H%Qle_bool_iff. congruence. }
    simpl. rewrite drop_app_length. split_and!; try done.
    + split; [|done].
      intros Hin.
      repeat (apply elem_of_cons in Hin as [Heq|Hin]; [discriminate|]).
      by apply elem_of_nil in Hin.
    + intros Heq. destruct Hnle. rewrite Heq. apply Qle_refl.
Qed.

End Notebook.

Section LoaderClaims.
Variable predict_row : estimator_class → params → dataset → row → label.
Variable draw_feature : Z → classification_args → nat → nat → float64.
Variable draw_label : Z → classification_args → nat → label.
Variable rng_key : Z → stream → Z → Z.
Variable np_random : Z.
Variable write_error : string → option exn.

Local Abbreviation load_data :=
  (load_or_create_demo_data draw_feature draw_label rng_key np_random).
Local Abbreviation synthetic :=
  (synthetic_demo_data draw_feature draw_label rng_key np_random).
Local Abbreviation generate := (make_classification draw_feature draw_label np_random).
Local Abbreviation split := (train_test_split rng_key np_random).
Local Abbreviation search := (GridSearchCV_fit predict_row).
Local Abbreviation section_1 :=
  (load_existing predict_row draw_feature draw_label rng_key np_random).
Local Abbreviation run_notebook :=
  (notebook predict_row draw_feature draw_label rng_key np_random
     write_error).

(** C2 (as amended).  The data loader raises the read error of the first
    load, in program order, that fails when that file is present but
    malformed; it falls back to the synthetic data when that first failure
    is an absent file.  The model loader never raises on a load failure: a
    malformed file and an absent file both yield the caller's default. *)
Theorem resolvers_fallback_policy (random_state : Z) (path : string)
    (default : pyobj) (w : world) :
  (load_data random_state w).1 =
    match first_failure (fs w) dataset_paths with
    | Some (Malformed _ c) => Raises (exn_of_corruption c)
    | Some (Absent _) => Returns (synthetic random_state)
    | None => Returns (stored (fs w) X_train_path, stored (fs w) X_test_path,
                       stored (fs w) y_train_path, stored (fs w) y_test_path)
    end
  ∧
  (safe_load_model path default w).1 =
    match fs w !! path with
    | Some (Readable o) => Returns o
    | Some (Corrupt _) => Returns default
    | None => Returns default
    end.
Proof.
  rewrite load_or_create_demo_data_run, safe_load_model_run. split.
  - by destruct (first_failure _ _) as [[]|].
  - by destruct (fs w !! path) as [[]|].
Qed.

(** C4.  With a fixed seed the fallback yields the same four arrays
    whatever state numpy's global generator is in and whatever world the
    loader runs in, and twice in a row in the same run: both library calls
    are given the seed, so neither draws from the global generator, and the
    result depends on the seed alone.  The generator and the split
    themselves, called with the same seed and arguments, give the same
    arrays in any two states of the global generator. *)
Theorem synthetic_fallback_deterministic (random_state : Z)
    (np_random1 np_random2 : Z) (w1 w2 : world) (p1 p2 : string) :
  let load_data1 :=
    load_or_create_demo_data draw_feature draw_label rng_key np_random1 in
  let load_data2 :=
    load_or_create_demo_data draw_feature draw_label rng_key np_random2 in
  first_failure (fs w1) dataset_paths = Some (Absent p1) →
  first_failure (fs w2) dataset_paths = Some (Absent p2) →
  (load_data2 random_state w2).1 = (load_data1 random_state w1).1 ∧
  (∃ q, (load_data1 random_state w1).1 = Returns q) ∧
  ((q1 ← load_data1 random_state; q2 ← load_data1 random_state;
    mret (q1, q2)) w1).1
    = ((q1 ← load_data1 random_state; mret (q1, q1)) w1).1 ∧
  (∀ (a : classification_args) (seed : Z),
     mc_random_state a = Some seed →
     make_classification draw_feature draw_label np_random1 a
     = make_classification draw_feature draw_label np_random2 a) ∧
  (∀ (X : list row) (y : list label) (test_size : Q) (seed : Z),
     train_test_split rng_key np_random1 X y test_size (Some seed)
     = train_test_split rng_key np_random2 X y test_size (Some seed)).
Proof.
  intros load_data1 load_data2 H1 H2. subst load_data1 load_data2.
  rewrite !load_or_create_demo_data_run, H1, H2.
  split_and!; [done|by eexists| | |done].
  - monad_unfold. rewrite !load_or_create_demo_data_run, H1.
    rewrite !load_or_create_demo_data_run. cbn [fs]. by rewrite H1.
  - intros a seed Ha. unfold make_classification. by rewrite Ha.
Qed.

(** C10.  A quadruple returned by the data loader is either the synthetic
    one or the contents of the four files, never a mix; and when some file
    is absent and no file is malformed, the result is the synthetic
    quadruple, whatever was already read. *)
Theorem dataset_bundle_atomic (random_state : Z) (w : world) :
  let r := (load_data random_state w).1 in
  (∀ q, r = Returns q →
     q = synthetic random_state ∨
     (fs w !! X_train_path = Some (Readable q.1.1.1) ∧
      fs w !! X_test_path = Some (Readable q.1.1.2) ∧
      fs w !! y_train_path = Some (Readable q.1.2) ∧
      fs w !! y_test_path = Some (Readable q.2)))
  ∧
  ((∃ p, p ∈ dataset_paths ∧ fs w !! p = None) →
   (∀ p c, p ∈ dataset_paths → fs w !! p ≠ Some (Corrupt c)) →
   r = Returns (synthetic random_state)).
Proof.
  cbv zeta. rewrite load_or_create_demo_data_run.
  unfold dataset_paths, first_failure, stored. split.
  - intros q.
    destruct (fs w !! X_train_path) as [[o1|c1]|]; [|done|intros [= <-]; by left].
    destruct (fs w !! X_test_path) as [[o2|c2]|]; [|done|intros [= <-]; by left].
    destruct (fs w !! y_train_path) as [[o3|c3]|]; [|done|intros [= <-]; by left].
    destruct (fs w !! y_test_path) as [[o4|c4]|]; [|done|intros [= <-]; by left].
    intros [= <-]. by right.
  - intros (p & Hp & Hnone) Hgood.
    destruct (fs w !! X_train_path) as [[o1|c1]|] eqn:E1; [|destruct (Hgood X_train_path c1); [in_paths|done]|done].
    destruct (fs w !! X_test_path) as [[o2|c2]|] eqn:E2; [|destruct (Hgood X_test_path c2); [in_paths|done]|done].
    destruct (fs w !! y_train_path) as [[o3|c3]|] eqn:E3; [|destruct (Hgood y_train_path c3); [in_paths|done]|done].
    destruct (fs w !! y_test_path) as [[o4|c4]|] eqn:E4; [|destruct (Hgood y_test_path c4); [in_paths|done]|done].
    exfalso. repeat (apply elem_of_cons in Hp as [->|Hp]; [congruence|]).
    by apply elem_of_nil in Hp.
Qed.

(** C6.  When the loader falls back, the generator is asked for 400
    samples of 10 features with class weights [0.55, 0.45] and gives arrays
    of that shape, and the 80/20 split gives 320 training samples and 80
    test samples (features and labels alike), for every seed and so for the
    default 42. *)
Theorem fallback_shapes (random_state : Z) (w : world) (p : string) :
  first_failure (fs w) dataset_paths = Some (Absent p) →
  n_samples (demo_args random_state) = 400 ∧
  n_features (demo_args random_state) = 10 ∧
  weights (demo_args random_state) = [55 # 100; 45 # 100]%Q ∧
  length (generate (demo_args random_state)).1 = 400 ∧
  length (generate (demo_args random_state)).2 = 400 ∧
  Forall (λ r, length r = 10) (generate (demo_args random_state)).1 ∧
  ∃ X_train X_test y_train y_test,
    (load_data random_state w).1
      = Returns (NdArray X_train, NdArray X_test,
                 Labels y_train, Labels y_test) ∧
    length X_train = 320 ∧ length y_train = 320 ∧
    length X_test = 80 ∧ length y_test = 80 ∧
    Forall (λ r, length r = 10) X_train ∧
    Forall (λ r, length r = 10) X_test.
Proof.
  intros Hfail.
  pose proof (make_classification_shape draw_feature draw_label np_random
                (demo_args random_state)) as (HX & Hy & Hrows).
  split_and!; [done..|].
  destruct (synthetic_split draw_feature draw_label rng_key np_random random_state)
    as (X_train & X_test & y_train & y_test & _ & Hsyn & H).
  exists X_train, X_test, y_train, y_test.
  rewrite load_or_create_demo_data_run, Hfail. cbn [fst]. rewrite Hsyn.
  destruct H as (? & ? & ? & ? & ? & ? & _). split_and!; done.
Qed.

(** C7.  For every synthetic data set of the fallback and every class, the
    class's members are divided between the two parts, its count in the
    training part is less than one sample away from 80% of its count, its
    count in the test part less than one sample away from 20%, and the two
    parts' class shares differ by less than one sample in 400. *)
Theorem stratified_split_within_one_sample (random_state : Z) (c : label) :
  let '(X, y) := generate (demo_args random_state) in
  let '(X_train, X_test, y_train, y_test) :=
    split X y (2 # 10) (Some random_state) in
  let n_c := class_count y c in
  let train_c := class_count y_train c in
  let test_c := class_count y_test c in
  train_c + test_c = n_c ∧
  400 * train_c < 320 * n_c + 400 ∧ 320 * n_c < 400 * train_c + 400 ∧
  400 * test_c < 80 * n_c + 400 ∧ 80 * n_c < 400 * test_c + 400 ∧
  80 * train_c < 320 * test_c + 400 ∧ 320 * test_c < 80 * train_c + 400.
Proof.
  destruct (synthetic_split draw_feature draw_label rng_key np_random random_state)
    as (X_train & X_test & y_train & y_test & Hsplit & _ & _ & _ & _ & _ & _ & _ & Hc).
  destruct (generate (demo_args random_state)) as [X y].
  cbn [fst snd] in Hsplit, Hc. rewrite Hsplit.
  specialize (Hc c). cbv zeta in *. lia.
Qed.

End LoaderClaims.






Section SearchClaims.
Variable predict_row : estimator_class → params → dataset → row → label.
Variable draw_feature : Z → classification_args → nat → nat → float64.
Variable draw_label : Z → classification_args → nat → label.
Variable rng_key : Z → stream → Z → Z.
Variable np_random : Z.
Variable write_error : string → option exn.

Local Abbreviation search := (GridSearchCV_fit predict_row).
Local Abbreviation section_1 :=
  (load_existing predict_row draw_feature draw_label rng_key np_random).
Local Abbreviation run_notebook :=
  (notebook predict_row draw_feature draw_label rng_key np_random
     write_error).




(** C9.  With fewer training samples than folds the search raises a
    configuration error and leaves the world as it found it (nothing was
    fitted); the notebook does not catch it: the cell raises, and a run of
    the notebook that reaches the cell ends with that error. *)
Theorem grid_search_too_few_samples (gs : GridSearchCV) (X y : pyobj)
    (d : dataset) (w : world) :
  indexable X y = Returns d →
  length d < cv gs →
  search gs X y w = (Raises ConfigurationError, w) ∧
  (gs = rf_grid_search →
   run_rf_grid_search predict_row X y w = (Raises ConfigurationError, w) ∧
   ∀ w0 X_test y_test old_model,
     section_1 w0 = (Returns (X, X_test, y, y_test, old_model), w) →
     run_notebook w0 = (Raises ConfigurationError, w)).
Proof.
  intros Hd Hlen.
  assert (search gs X y w = (Raises ConfigurationError, w)) as Hraise.
  { apply (GridSearchCV_fit_raises predict_row gs X y d); auto. }
  split; [done|]. intros ->.
  assert (run_rf_grid_search predict_row X y w = (Raises ConfigurationError, w))
    as Hrun.
  { unfold run_rf_grid_search. unfold mbind at 1, M_bind at 1, bind at 1.
    by rewrite Hraise. }
  split; [done|]. intros w0 X_test y_test old_model Hsec.
  unfold notebook. unfold mbind at 1, M_bind at 1, bind at 1. rewrite Hsec.
  unfold mbind at 1, M_bind at 1, bind at 1. by rewrite Hrun.
Qed.

End SearchClaims.

(** ** Cells that do not write the store *)

Lemma fs_stable_ret {A} (a : A) : fs_stable (mret a).
Proof. by intros w. Qed.

Lemma fs_stable_raise {A} e : fs_stable (@raise A e).
Proof. by intros w. Qed.

Lemma fs_stable_lift {A} (o : outcome A) : fs_stable (lift o).
Proof. by intros w. Qed.

Lemma fs_stable_emit e : fs_stable (emit e).
Proof. by intros w. Qed.

Lemma fs_stable_print m : fs_stable (print m).
Proof. by intros w. Qed.

Lemma fs_stable_load_file path : fs_stable (load_file path).
Proof. intros w. unfold load_file. by destruct (fs w !! path) as [[]|]. Qed.

Lemma fs_stable_bind {A B} (m : M A) (k : A → M B) :
  fs_stable m → (∀ a, fs_stable (k a)) → fs_stable (m ≫= k).
Proof.
  intros Hm Hk w. unfold mbind, M_bind, bind.
  specialize (Hm w). destruct (m w) as [[a|e] w']; simpl in *; [|done].
  by rewrite Hk.
Qed.

Lemma fs_stable_try_except {A} (body : M A) catches handler :
  fs_stable body → (∀ e, fs_stable (handler e)) →
  fs_stable (try_except body catches handler).
Proof.
  intros Hb Hh w. unfold try_except.
  specialize (Hb w). destruct (body w) as [[a|e] w']; simpl in *; [done|].
  destruct (catches e); [|done]. by rewrite Hh.
Qed.

Lemma fs_stable_mapM {A B} (f : A → M B) l :
  (∀ x, fs_stable (f x)) → fs_stable (mapM f l).
Proof.
  intros Hf. induction l as [|x l IH]; [apply fs_stable_ret|].
  change (mapM f (x :: l)) with (f x ≫= λ y, mapM f l ≫= λ k, mret (y :: k)).
  apply fs_stable_bind; [done|]. intros y.
  apply fs_stable_bind; [done|]. intros k. apply fs_stable_ret.
Qed.

Create HintDb stable.
#[local] Hint Resolve fs_stable_ret fs_stable_raise fs_stable_lift
  fs_stable_emit fs_stable_print fs_stable_load_file fs_stable_mapM
  : stable.

Ltac solve_fs_stable :=
  repeat first
    [ progress intros
    | solve [auto with stable]
    | apply fs_stable_bind
    | apply fs_stable_try_except
    | match goal with
      | |- fs_stable (match ?x with _ => _ end) => destruct x
      | |- fs_stable (if ?b then _ else _) => destruct b
      end ].

Section Stable.
Variable predict_row : estimator_class → params → dataset → row → label.
Variable draw_feature : Z → classification_args → nat → nat → float64.
Variable draw_label : Z → classification_args → nat → label.
Variable rng_key : Z → stream → Z → Z.
Variable np_random : Z.
Variable write_error : string → option exn.

Lemma fs_stable_fit o X y : fs_stable (fit o X y).
Proof. unfold fit. solve_fs_stable. Qed.

Lemma fs_stable_load_existing :
  fs_stable (load_existing predict_row draw_feature draw_label rng_key np_random).
Proof.
  unfold load_existing, load_or_create_demo_data, safe_load_model,
    fit_if_fresh, report_baseline, np_load, joblib_load.
  pose proof fs_stable_fit. solve_fs_stable.
Qed.

Lemma fs_stable_GridSearchCV_fit gs X y :
  fs_stable (GridSearchCV_fit predict_row gs X y).
Proof.
  unfold GridSearchCV_fit. solve_fs_stable.
  apply fs_stable_mapM. intros p. unfold evaluate_candidate. solve_fs_stable.
  apply fs_stable_mapM. intros f. unfold fit_and_score. solve_fs_stable.
Qed.

Lemma fs_stable_searches X y :
  fs_stable (run_rf_grid_search predict_row X y) ∧
  fs_stable (run_log_reg_grid_search predict_row X y).
Proof.
  unfold run_rf_grid_search, run_log_reg_grid_search.
  pose proof fs_stable_GridSearchCV_fit. split; solve_fs_stable.
Qed.

End Stable.

(** * Whole runs *)

Local Open Scope list_scope.
Local Open Scope nat_scope.

(** ** What a computation appends to the trace *)

Lemma emits_ret {A} P (a : A) : emits P (mret a).
Proof. intros w. exists []. by rewrite app_nil_r. Qed.

Lemma emits_raise {A} P e : emits P (@raise A e).
Proof. intros w. exists []. by rewrite app_nil_r. Qed.

Lemma emits_lift {A} P (o : outcome A) : emits P (lift o).
Proof. intros w. exists []. by rewrite app_nil_r. Qed.

Lemma emits_emit (P : event → Prop) e : P e → emits P (emit e).
Proof. intros He w. exists [e]. split; [done|]. by constructor. Qed.

Lemma emits_load_file P path : emits P (load_file path).
Proof.
  intros w. exists []. rewrite app_nil_r. unfold load_file.
  by destruct (fs w !! path) as [[]|].
Qed.

Lemma emits_bind {A B} P (m : M A) (k : A → M B) :
  emits P m → (∀ a, emits P (k a)) → emits P (m ≫= k).
Proof.
  intros Hm Hk w. unfold mbind, M_bind, bind.
  destruct (Hm w) as (evs1 & H1 & HP1).
  destruct (m w) as [[a|e] w']; simpl in *; [|by exists evs1].
  destruct (Hk a w') as (evs2 & H2 & HP2).
  exists (evs1 ++ evs2). rewrite H2, H1, app_assoc. split; [done|].
  by apply Forall_app.
Qed.

Lemma emits_try_except {A} P (body : M A) catches handler :
  emits P body → (∀ e, emits P (handler e)) →
  emits P (try_except body catches handler).
Proof.
  intros Hb Hh w. unfold try_except.
  destruct (Hb w) as (evs1 & H1 & HP1).
  destruct (body w) as [[a|e] w']; simpl in *; [by exists evs1|].
  destruct (catches e); [|by exists evs1].
  destruct (Hh e w') as (evs2 & H2 & HP2).
  exists (evs1 ++ evs2). rewrite H2, H1, app_assoc. split; [done|].
  by apply Forall_app.
Qed.

Lemma emits_mapM {A B} P (f : A → M B) l :
  (∀ x, x ∈ l → emits P (f x)) → emits P (mapM f l).
Proof.
  induction l as [|x l IH]; intros Hf; [apply emits_ret|].
  change (mapM f (x :: l)) with (f x ≫= λ y, mapM f l ≫= λ k, mret (y :: k)).
  apply emits_bind; [apply Hf; left|]. intros y.
  apply emits_bind; [apply IH; intros; apply Hf; by right|].
  intros k. apply emits_ret.
Qed.

Lemma emits_impl {A} (P Q : event → Prop) (m : M A) :
  (∀ e, P e → Q e) → emits P m → emits Q m.
Proof.
  intros HPQ Hm w. destruct (Hm w) as (evs & H & HP).
  exists evs. split; [done|]. by eapply Forall_impl.
Qed.

Ltac solve_emits :=
  repeat first
    [ progress intros
    | apply emits_ret | apply emits_raise | apply emits_lift
    | apply emits_load_file
    | apply emits_emit; solve [auto]
    | assumption
    | apply emits_bind
    | apply emits_try_except
    | match goal with
      | |- emits _ (match ?x with _ => _ end) => destruct x
      | |- emits _ (if ?b then _ else _) => destruct b
      end ].

(** ** What a search has done when it is over *)

Section Search.
Variable predict_row : estimator_class → params → dataset → row → label.

Local Abbreviation search := (GridSearchCV_fit predict_row).

Lemma GridSearchCV_fit_early gs X y w :
  (∃ e, indexable X y = Raises e)
  ∨ (∃ d, indexable X y = Returns d ∧
          (cv gs < 2 ∨ length d < cv gs ∨ param_grid gs = []
           ∨ ParameterGrid (param_grid gs) = [])) →
  ∃ e, search gs X y w = (Raises e, w).
Proof.
  intros [[e He]|(d & Hd & Hbad)].
  - exists e. unfold GridSearchCV_fit. monad_unfold. by rewrite He.
  - exists ConfigurationError.
    by apply (GridSearchCV_fit_raises predict_row gs X y d).
Qed.

(** What a search has done when it is over: nothing if it raises. *)
Lemma GridSearchCV_fit_outcome gs X y w :
  match search gs X y w with
  | (Raises _, w') => w' = w
  | (Returns r, w') =>
      ∃ d evs,
        indexable X y = Returns d ∧ cv gs ≤ length d ∧
        best_params_ r ∈ ParameterGrid (param_grid gs) ∧
        best_estimator_ r
          = Model (m_class (estimator gs))
                  (m_params (set_params (estimator gs) (best_params_ r)))
                  (Some d) ∧
        fs w' = fs w ∧
        trace w' = trace w ++ evs ∧
        Forall (training_event X y) evs
  end.
Proof.
  destruct (indexable X y) as [d|e] eqn:Hd.
  2:{ destruct (GridSearchCV_fit_early gs X y w) as [e' ->]; eauto. }
  destruct (decide (cv gs < 2 ∨ length d < cv gs ∨ param_grid gs = []
                    ∨ ParameterGrid (param_grid gs) = [])) as [Hbad|Hok].
  { destruct (GridSearchCV_fit_early gs X y w) as [e' ->]; eauto. }
  destruct (GridSearchCV_fit_run predict_row gs X y d w Hd)
    as (p & s & Hbest & ->); [lia|lia|tauto|tauto|].
  eexists d, _. cbn [best_params_ best_estimator_ fs trace].
  split_and!; [done|lia| |done|done|done|].
  - destruct (best_of_spec
                ((λ p, (p, cv_score predict_row (estimator gs)
                             (kfold (cv gs) d) p))
                   <$> ParameterGrid (param_grid gs)))
      as (b & Hb & Hin & _).
    { intros H%fmap_nil_inv. tauto. }
    cbv zeta in Hbest. rewrite Hbest in Hb. injection Hb as <-.
    apply list_elem_of_fmap in Hin as (p' & Heq & Hp').
    injection Heq as -> _. done.
  - apply Forall_app. split.
    + apply Forall_forall. intros e Hin.
      apply list_elem_of_bind in Hin as (p'' & Hin & _).
      unfold candidate_fits in Hin.
      apply list_elem_of_bind in Hin as (f & Hin & Hf).
      apply list_elem_of_singleton in Hin as ->.
      unfold kfold in Hf. apply list_elem_of_fmap in Hf as (i & -> & _).
      exists d. split; [done|]. apply fold_train_sublist.
    + apply Forall_singleton. by exists d.
Qed.

Lemma GridSearchCV_fit_emits gs X y :
  emits (training_event X y) (search gs X y).
Proof.
  intros w. pose proof (GridSearchCV_fit_outcome gs X y w) as H.
  destruct (search gs X y w) as [[r|e] w'].
  - destruct H as (d & evs & _ & _ & _ & _ & _ & Htr & Hev). by exists evs.
  - subst w'. exists []. by rewrite app_nil_r.
Qed.

End Search.

(** ** Values that do not depend on the world *)

Lemma value_stable_ret {A} (a : A) : value_stable (mret a).
Proof. by intros w1 w2. Qed.

Lemma value_stable_raise {A} e : value_stable (@raise A e).
Proof. by intros w1 w2. Qed.

Lemma value_stable_lift {A} (o : outcome A) : value_stable (lift o).
Proof. by intros w1 w2. Qed.

Lemma value_stable_emit e : value_stable (emit e).
Proof. by intros w1 w2. Qed.

Lemma value_stable_bind {A B} (m : M A) (k : A → M B) :
  value_stable m → (∀ a, value_stable (k a)) → value_stable (m ≫= k).
Proof.
  intros Hm Hk w1 w2. unfold mbind, M_bind, bind.
  specialize (Hm w1 w2).
  destruct (m w1) as [[a1|e1] w1'], (m w2) as [[a2|e2] w2']; simpl in *;
    simplify_eq; [apply Hk|done].
Qed.

Lemma value_stable_mapM {A B} (f : A → M B) l :
  (∀ x, value_stable (f x)) → value_stable (mapM f l).
Proof.
  intros Hf. induction l as [|x l IH]; [apply value_stable_ret|].
  change (mapM f (x :: l)) with (f x ≫= λ y, mapM f l ≫= λ k, mret (y :: k)).
  apply value_stable_bind; [done|]. intros y.
  apply value_stable_bind; [done|]. intros k. apply value_stable_ret.
Qed.

Ltac solve_value_stable :=
  repeat first
    [ progress intros
    | apply value_stable_ret | apply value_stable_raise
    | apply value_stable_lift | apply value_stable_emit
    | solve [auto]
    | apply value_stable_mapM
    | apply value_stable_bind
    | match goal with
      | |- value_stable (match ?x with _ => _ end) => destruct x
      | |- value_stable (if ?b then _ else _) => destruct b
      end ].

Section ValueStable.
Variable predict_row : estimator_class → params → dataset → row → label.

Lemma value_stable_GridSearchCV_fit gs X y :
  value_stable (GridSearchCV_fit predict_row gs X y).
Proof.
  unfold GridSearchCV_fit, evaluate_candidate, fit_and_score.
  solve_value_stable.
Qed.

Lemma value_stable_searches X y :
  value_stable (run_rf_grid_search predict_row X y) ∧
  value_stable (run_log_reg_grid_search predict_row X y).
Proof.
  unfold run_rf_grid_search, run_log_reg_grid_search, print.
  pose proof value_stable_GridSearchCV_fit. split; solve_value_stable.
Qed.

End ValueStable.

(** ** The notebook, cell after cell *)

Lemma rf_grid_params (combo : params) :
  combo ∈ ParameterGrid rf_param_grid →
  m_params (set_params default_model combo)
  = (combo ++ [("random_state", PInt 42)])%list.
Proof.
  intros Hin. unfold rf_param_grid in Hin. cbn in Hin.
  repeat (apply elem_of_cons in Hin as [->|Hin]; [reflexivity|]).
  by apply elem_of_nil in Hin.
Qed.

Section Runs.
Variable predict_row : estimator_class → params → dataset → row → label.
Variable draw_feature : Z → classification_args → nat → nat → float64.
Variable draw_label : Z → classification_args → nat → label.
Variable rng_key : Z → stream → Z → Z.
Variable np_random : Z.
Variable write_error : string → option exn.

Local Abbreviation load_data :=
  (load_or_create_demo_data draw_feature draw_label rng_key np_random).
Local Abbreviation section_1 :=
  (load_existing predict_row draw_feature draw_label rng_key np_random).
Local Abbreviation run_notebook :=
  (notebook predict_row draw_feature draw_label rng_key np_random
     write_error).

Lemma fit_emits o X y : emits (training_event X y) (fit o X y).
Proof.
  intros w. unfold fit.
  destruct o as [| |m|]; try (exists []; by rewrite app_nil_r).
  monad_unfold. destruct (indexable X y) as [[|s d]|e] eqn:Hd;
    try (exists []; by rewrite app_nil_r).
  eexists [_]. split; [done|]. apply Forall_singleton. by exists (s :: d).
Qed.

Lemma run_rf_grid_search_outcome X y w :
  match run_rf_grid_search predict_row X y w with
  | (Raises _, w') => w' = w
  | (Returns r, w') =>
      ∃ d evs combo,
        indexable X y = Returns d ∧ 3 ≤ length d ∧
        combo ∈ ParameterGrid rf_param_grid ∧
        best_estimator_ r
          = Model RandomForestClassifier
                  (combo ++ [("random_state", PInt 42)]) (Some d) ∧
        fs w' = fs w ∧
        trace w' = trace w ++ evs ∧
        Forall (training_event X y) evs
  end.
Proof.
  unfold run_rf_grid_search. monad_unfold.
  pose proof (GridSearchCV_fit_outcome predict_row rf_grid_search X y w) as H.
  destruct (GridSearchCV_fit predict_row rf_grid_search X y w) as [[r|e] w1];
    [|done].
  destruct H as (d & evs & Hd & Hlen & Hp & Hbest & Hfs & Htr & Hev).
  exists d, (evs ++ [Printed (MsgBestParams (best_params_ r));
                     Printed (MsgBestCVAccuracy (best_score_ r))]),
    (best_params_ r).
  cbn [fs trace]. split_and!; try done.
  - rewrite Hbest. change (estimator rf_grid_search) with default_model.
    by rewrite (rf_grid_params _ Hp).
  - rewrite Htr. by rewrite <- !app_assoc.
  - apply Forall_app. split; [done|]. by repeat constructor.
Qed.

Lemma run_log_reg_grid_search_outcome X y w :
  match run_log_reg_grid_search predict_row X y w with
  | (Raises _, w') => w' = w
  | (Returns r, w') =>
      ∃ evs, fs w' = fs w ∧ trace w' = trace w ++ evs ∧
             Forall (training_event X y) evs
  end.
Proof.
  unfold run_log_reg_grid_search. monad_unfold.
  pose proof (GridSearchCV_fit_outcome predict_row log_reg_grid_search X y w)
    as H.
  destruct (GridSearchCV_fit predict_row log_reg_grid_search X y w)
    as [[r|e] w1]; [|done].
  destruct H as (d & evs & _ & _ & _ & _ & Hfs & Htr & Hev).
  exists (evs ++ [Printed (MsgLogRegBestParams (best_params_ r));
                  Printed (MsgLogRegBestCVAccuracy (best_score_ r))]).
  cbn [fs trace]. split_and!; try done.
  - rewrite Htr. by rewrite <- !app_assoc.
  - apply Forall_app. split; [done|]. by repeat constructor.
Qed.

Lemma notebook_steps w :
  run_notebook w =
    match section_1 w with
    | (Returns (X_train, X_test, y_train, y_test, old_model), w1) =>
        match run_rf_grid_search predict_row X_train y_train w1 with
        | (Returns rf, w2) =>
            match run_log_reg_grid_search predict_row X_train y_train w2 with
            | (Returns _, w3) =>
                compare_and_persist predict_row write_error old_model
                  (Estimator (best_estimator_ rf)) X_test y_test w3
            | (Raises e, w3) => (Raises e, w3)
            end
        | (Raises e, w2) => (Raises e, w2)
        end
    | (Raises e, w1) => (Raises e, w1)
    end.
Proof.
  unfold notebook. unfold mbind at 1, M_bind at 1, bind at 1.
  destruct (section_1 w) as [[[[[[X_train X_test] y_train] y_test] old]|e] w1];
    reflexivity.
Qed.

Lemma load_existing_steps w :
  section_1 w =
    match load_data 42 w with
    | (Returns (X_train, X_test, y_train, y_test), w1) =>
        match safe_load_model best_model_path (Estimator default_model) w1 with
        | (Returns loaded, w2) =>
            match fit_if_fresh loaded X_train y_train w2 with
            | (Returns old_model, w3) =>
                match report_baseline predict_row X_train X_test y_train
                        y_test old_model w3 with
                | (Returns _, w4) =>
                    (Returns (X_train, X_test, y_train, y_test, old_model), w4)
                | (Raises e, w4) => (Raises e, w4)
                end
            | (Raises e, w3) => (Raises e, w3)
            end
        | (Raises e, w2) => (Raises e, w2)
        end
    | (Raises e, w1) => (Raises e, w1)
    end.
Proof.
  unfold load_existing. unfold mbind at 1, M_bind at 1, bind at 1.
  destruct (load_data 42 w) as [[[[[X_train X_test] y_train] y_test]|e] w1];
    [|reflexivity].
  unfold mbind at 1, M_bind at 1, bind at 1.
  destruct (safe_load_model _ _ w1) as [[loaded|e] w2]; [|reflexivity].
  unfold mbind at 1, M_bind at 1, bind at 1.
  destruct (fit_if_fresh loaded X_train y_train w2) as [[old|e] w3];
    [|reflexivity].
  unfold mbind at 1, M_bind at 1, bind at 1.
  destruct (report_baseline _ _ _ _ _ _ w3) as [[[]|e] w4]; reflexivity.
Qed.

Lemma fit_if_fresh_emits o X y :
  emits (training_event X y) (fit_if_fresh o X y) ∧
  fs_stable (fit_if_fresh o X y).
Proof.
  unfold fit_if_fresh. destruct (_ && _).
  - split; [apply fit_emits|apply fs_stable_fit].
  - split; [apply emits_ret|apply fs_stable_ret].
Qed.

Lemma report_baseline_emits P X_train X_test y_train y_test old_model :
  (∀ m, P (Printed m)) →
  emits P (report_baseline predict_row X_train X_test y_train y_test
             old_model) ∧
  fs_stable (report_baseline predict_row X_train X_test y_train y_test
               old_model).
Proof.
  intros HP. unfold report_baseline, print. split.
  - solve_emits.
  - solve_fs_stable.
Qed.

(** Section 1 after the data is resolved: messages and at most one fit, on
    the training partition; the data is handed on as resolved. *)
Lemma section_1_outcome w :
  match load_data 42 w with
  | (Raises e, _) => section_1 w = (Raises e, w)
  | (Returns (X_train, X_test, y_train, y_test), _) =>
      ∃ evs,
        trace (section_1 w).2 = trace w ++ evs ∧
        Forall (training_event X_train y_train) evs ∧
        fs (section_1 w).2 = fs w ∧
        match (section_1 w).1 with
        | Returns q => ∃ old, q = (X_train, X_test, y_train, y_test, old)
        | Raises _ => True
        end
  end.
Proof.
  rewrite load_existing_steps.
  pose proof (load_or_create_demo_data_run draw_feature draw_label rng_key np_random
                42 w) as Hload.
  destruct (load_data 42 w) as [[[[[X_train X_test] y_train] y_test]|e] w1].
  2:{ destruct (first_failure _ _) as [[]|]; by simplify_eq. }
  assert (∃ m, w1 = World (fs w) (trace w ++ [Printed m])) as [m ->].
  { destruct (first_failure _ _) as [[]|]; simplify_eq; eauto. }
  rewrite safe_load_model_run. cbn [fs trace].
  assert (∃ loaded m',
            match fs w !! best_model_path with
            | Some (Readable o) =>
                (Returns o,
                 World (fs w) ((trace w ++ [Printed m])
                               ++ [Printed (MsgLoadedModel best_model_path)]))
            | Some (Corrupt c) =>
                (Returns (Estimator default_model),
                 World (fs w) ((trace w ++ [Printed m])
                   ++ [Printed (MsgCouldNotLoad best_model_path
                                  (exn_of_corruption c))]))
            | None =>
                (Returns (Estimator default_model),
                 World (fs w) ((trace w ++ [Printed m])
                   ++ [Printed (MsgCouldNotLoad best_model_path
                                  (FileNotFoundError best_model_path))]))
            end = (Returns loaded, World (fs w) (trace w ++ [Printed m; Printed m'])))
    as (loaded & m' & ->).
  { destruct (fs w !! best_model_path) as [[o|c]|];
      rewrite <- app_assoc; eauto. }
  destruct (fit_if_fresh_emits loaded X_train y_train) as [Hfit Hfs].
  specialize (Hfit (World (fs w) (trace w ++ [Printed m; Printed m']))).
  specialize (Hfs (World (fs w) (trace w ++ [Printed m; Printed m']))).
  destruct (fit_if_fresh loaded X_train y_train _) as [[old|e] w3];
    destruct Hfit as (evs3 & Htr3 & Hev3); cbn [snd fs trace] in *.
  2:{ exists ([Printed m; Printed m'] ++ evs3). rewrite Htr3, <- app_assoc.
      split_and!; try done. apply Forall_app. split; [|done].
      by repeat constructor. }
  destruct (report_baseline_emits (training_event X_train y_train)
              X_train X_test y_train y_test old ltac:(done)) as [Hrep Hfs4].
  specialize (Hrep w3). specialize (Hfs4 w3).
  destruct (report_baseline _ _ _ _ _ _ w3) as [[[]|e] w4];
    destruct Hrep as (evs4 & Htr4 & Hev4); cbn [snd fst fs trace] in *;
    exists ([Printed m; Printed m'] ++ evs3 ++ evs4);
    rewrite Htr4, Htr3, <- !app_assoc;
    (split_and!; [done| |congruence|eauto]);
    (apply Forall_app; split; [by repeat constructor|by apply Forall_app]).
Qed.

(** The last cell either saves, as its last act, or leaves the store alone
    and prints at most. *)
Lemma compare_and_persist_outcome (old new X y : pyobj) w :
  let r := compare_and_persist predict_row write_error old new X y w in
  (fs r.2 = fs w ∧
   ∃ evs, trace r.2 = trace w ++ evs ∧ Forall (λ e, ∃ m, e = Printed m) evs)
  ∨ (∃ a_old a_new : Q,
       test_accuracy predict_row old X y = Returns (Finite a_old) ∧
       test_accuracy predict_row new X y = Returns (Finite a_new) ∧
       (a_old <= a_new)%Q ∧
       write_error best_model_path = None ∧
       r = (Returns tt,
            World (<[best_model_path := Readable new]> (fs w))
              (trace w ++ [Printed (MsgComparison (Finite a_old) (Finite a_new));
                           Printed MsgSavingNewBest;
                           Dumped best_model_path new]))).
Proof.
  cbv zeta.
  destruct (test_accuracy predict_row old X y) as [a_old|e] eqn:Ho.
  2:{ destruct (compare_and_persist_raises predict_row write_error old new X y w)
        as [e' ->]; [eauto|]. left. split; [done|]. exists [].
      by rewrite app_nil_r. }
  destruct (test_accuracy predict_row new X y) as [a_new|e] eqn:Hn.
  2:{ destruct (compare_and_persist_raises predict_row write_error old new X y w)
        as [e' ->]; [eauto|]. left. split; [done|]. exists [].
      by rewrite app_nil_r. }
  rewrite (compare_and_persist_run predict_row write_error _ _ _ _ _ _ w Ho Hn).
  destruct (pyfloat_ge a_new a_old) eqn:Hge.
  - destruct (write_error best_model_path) as [e|] eqn:Hwrite.
    + left. split; [done|]. eexists. split; [done|].
      repeat constructor; by eexists.
    + right. destruct a_new as [|qn], a_old as [|qo]; try done.
      exists qo, qn. split_and!; try done. by apply Qle_bool_iff.
  - left. split; [done|]. eexists. split; [done|].
    repeat constructor; by eexists.
Qed.

(** The shape of a whole run. *)
Lemma notebook_outcome w :
  match load_data 42 w with
  | (Raises e, _) => run_notebook w = (Raises e, w)
  | (Returns (X_train, X_test, y_train, y_test), _) =>
      ∃ pre,
        Forall (training_event X_train y_train) pre ∧
        ((fs (run_notebook w).2 = fs w ∧
          trace (run_notebook w).2 = trace w ++ pre)
         ∨ ∃ combo d rf a old a_old,
             combo ∈ ParameterGrid rf_param_grid ∧
             indexable X_train y_train = Returns d ∧
             3 ≤ length d ∧
             let best :=
               Estimator (Model RandomForestClassifier
                            (combo ++ [("random_state", PInt 42)]) (Some d)) in
             (∀ w0, (run_rf_grid_search predict_row X_train y_train w0).1
                    = Returns rf) ∧
             Estimator (best_estimator_ rf) = best ∧
             test_accuracy predict_row best X_test y_test
               = Returns (Finite a) ∧
             (section_1 w).1
               = Returns (X_train, X_test, y_train, y_test, old) ∧
             test_accuracy predict_row old X_test y_test
               = Returns (Finite a_old) ∧
             (a_old <= a)%Q ∧
             write_error best_model_path = None ∧
             run_notebook w =
               (Returns tt,
                World (<[best_model_path := Readable best]> (fs w))
                      (trace w ++ pre ++ [Dumped best_model_path best])))
  end.
Proof.
  rewrite notebook_steps. pose proof (section_1_outcome w) as H1.
  destruct (load_data 42 w) as [[[[[X_train X_test] y_train] y_test]|e] w0];
    [|by rewrite H1].
  destruct H1 as (evs1 & Htr1 & Hev1 & Hfs1 & Hq).
  destruct (section_1 w) as [[q|e] w1]; cbn [fst snd] in *.
  2:{ exists evs1. split; [done|]. by left. }
  destruct Hq as [old ->].
  pose proof (run_rf_grid_search_outcome X_train y_train w1) as H2.
  pose proof (proj1 (value_stable_searches predict_row X_train y_train) w1)
    as Hval.
  destruct (run_rf_grid_search _ _ _ w1) as [[rf|e] w2].
  2:{ subst w2. exists evs1. split; [done|]. by left. }
  destruct H2 as (d & evs2 & combo & Hd & Hlen & Hcombo & Hbest & Hfs2 & Htr2
                  & Hev2).
  pose proof (run_log_reg_grid_search_outcome X_train y_train w2) as H3.
  destruct (run_log_reg_grid_search _ _ _ w2) as [[lr|e] w3].
  2:{ subst w3. exists (evs1 ++ evs2). split; [by apply Forall_app|].
      left. cbn [snd]. rewrite Hfs2, Htr2, Htr1, <- app_assoc. done. }
  destruct H3 as (evs3 & Hfs3 & Htr3 & Hev3).
  destruct (compare_and_persist_outcome old (Estimator (best_estimator_ rf))
              X_test y_test w3)
    as [(Hfs4 & evs4 & Htr4 & Hev4)
       |(a_old & a_new & Hold & Hnew & Hle & Hwrite & Hsave)];
    cbv zeta in *.
  - exists (evs1 ++ evs2 ++ evs3 ++ evs4). split.
    + repeat (apply Forall_app; split; [done|]).
      eapply Forall_impl; [exact Hev4|]. by intros e [m ->].
    + left. rewrite Hfs4, Htr4, Hfs3, Htr3, Hfs2, Htr2, Htr1.
      by rewrite <- !app_assoc.
  - exists (evs1 ++ evs2 ++ evs3
            ++ [Printed (MsgComparison (Finite a_old) (Finite a_new));
                Printed MsgSavingNewBest]).
    split.
    + repeat (apply Forall_app; split; [done|]). by repeat constructor.
    + right. exists combo, d, rf, a_new, old, a_old. cbv zeta.
      rewrite Hbest in Hnew, Hsave.
      split_and!;
        [done|done|done| |by rewrite Hbest|done|done|done|done|done|].
      * intros w'. by rewrite <- (Hval w').
      * rewrite Hbest, Hsave, Hfs3, Hfs2, Hfs1, Htr3, Htr2, Htr1.
        by rewrite <- !app_assoc.
Qed.

End Runs.

(** ** What a run fits, saves and reports *)

Lemma training_event_no_dump X y e : training_event X y e → ¬ is_dump e.
Proof. destruct e; simpl; tauto. Qed.

Lemma training_event_fits_within X y e :
  training_event X y e → fits_within X y e.
Proof. destruct e; simpl; tauto. Qed.

Section Reports.
Variable predict_row : estimator_class → params → dataset → row → label.
Variable draw_feature : Z → classification_args → nat → nat → float64.
Variable draw_label : Z → classification_args → nat → label.
Variable rng_key : Z → stream → Z → Z.
Variable np_random : Z.
Variable write_error : string → option exn.

Local Abbreviation load_data :=
  (load_or_create_demo_data draw_feature draw_label rng_key np_random).
Local Abbreviation synthetic :=
  (synthetic_demo_data draw_feature draw_label rng_key np_random).
Local Abbreviation section_1 :=
  (load_existing predict_row draw_feature draw_label rng_key np_random).
Local Abbreviation run_notebook :=
  (notebook predict_row draw_feature draw_label rng_key np_random
     write_error).

(** X1.  A run dumps at most once, as its last event and only when it returns;
    what it dumps, at the best-model path, is the forest of the first
    search: fitted on the whole training partition, with one of the grid's
    combinations and the seed 42.  The logistic-regression search and the
    incumbent are never written. *)
Theorem only_the_tuned_forest_is_saved (w : world) :
  ∃ evs,
    trace (run_notebook w).2 = trace w ++ evs ∧
    (Forall (λ e, ¬ is_dump e) evs
     ∨ ∃ pre combo X_train X_test y_train y_test w1 d,
         let best :=
           Estimator (Model RandomForestClassifier
                        (combo ++ [("random_state", PInt 42)]) (Some d)) in
         evs = pre ++ [Dumped best_model_path best] ∧
         Forall (λ e, ¬ is_dump e) pre ∧
         combo ∈ ParameterGrid rf_param_grid ∧
         load_data 42 w = (Returns (X_train, X_test, y_train, y_test), w1) ∧
         indexable X_train y_train = Returns d ∧
         (run_notebook w).1 = Returns tt ∧
         fs (run_notebook w).2 !! best_model_path = Some (Readable best)).
Proof.
  pose proof (notebook_outcome predict_row draw_feature draw_label rng_key np_random
                write_error w)
    as H.
  destruct (load_data 42 w) as [[[[[X_train X_test] y_train] y_test]|e] w1]
    eqn:Hload.
  2:{ rewrite H. exists []. rewrite app_nil_r. split; [done|]. by left. }
  destruct H as (pre & Hpre & [[Hfs Htr]|(combo & d & rf & a & old & a_old
                                          & Hcombo & Hd & _ & _ & _ & _ & _ & _
                                          & _ & _ & Hrun)]).
  - exists pre. split; [done|]. left.
    eapply Forall_impl; [exact Hpre|]. apply training_event_no_dump.
  - cbv zeta in Hrun. rewrite Hrun. cbn [fst snd fs trace].
    eexists. split; [done|]. right.
    exists pre, combo, X_train, X_test, y_train, y_test, w1, d.
    split_and!; try done.
    + eapply Forall_impl; [exact Hpre|]. apply training_event_no_dump.
    + apply lookup_insert_eq.
Qed.

(** X2.  Whatever the run fits -- the default forest, every fold of both
    searches, both refits -- is fitted on part of the training partition
    the loader returned; the test partition is never fitted on. *)
Theorem fits_only_on_the_training_partition (w w1 : world)
    (X_train X_test y_train y_test : pyobj) :
  load_data 42 w = (Returns (X_train, X_test, y_train, y_test), w1) →
  Forall (fits_within X_train y_train)
         (drop (length (trace w)) (trace (run_notebook w).2)).
Proof.
  intros Hload.
  pose proof (notebook_outcome predict_row draw_feature draw_label rng_key np_random
                write_error w)
    as H.
  rewrite Hload in H.
  destruct H as (pre & Hpre & [[Hfs Htr]|(combo & d & rf & a & old & a_old
                                          & Hcombo & Hd & _ & _ & _ & _ & _ & _
                                          & _ & _ & Hrun)]).
  - rewrite Htr, drop_app_length.
    eapply Forall_impl; [exact Hpre|]. apply training_event_fits_within.
  - cbv zeta in Hrun. rewrite Hrun. cbn [snd trace].
    rewrite drop_app_length. apply Forall_app. split.
    + eapply Forall_impl; [exact Hpre|]. apply training_event_fits_within.
    + by apply Forall_singleton.
Qed.

(** X3.  A run that ends with an error has not written the store and has dumped
    nothing. *)
Theorem failed_run_writes_nothing (w : world) (e : exn) :
  (run_notebook w).1 = Raises e →
  fs (run_notebook w).2 = fs w ∧
  Forall (λ e, ¬ is_dump e)
         (drop (length (trace w)) (trace (run_notebook w).2)).
Proof.
  intros Hraise.
  pose proof (notebook_outcome predict_row draw_feature draw_label rng_key np_random
                write_error w)
    as H.
  destruct (load_data 42 w) as [[[[[X_train X_test] y_train] y_test]|e'] w1].
  2:{ rewrite H. cbn [snd]. by rewrite drop_all. }
  destruct H as (pre & Hpre & [[Hfs Htr]|(combo & d & rf & a & old & a_old
                                          & Hcombo & Hd & _ & _ & _ & _ & _ & _
                                          & _ & _ & Hrun)]).
  - split; [done|]. rewrite Htr, drop_app_length.
    eapply Forall_impl; [exact Hpre|]. apply training_event_no_dump.
  - cbv zeta in Hrun. by rewrite Hrun in Hraise.
Qed.

(** X4.  The data loader never writes the store and never lets a
    [FileNotFoundError] out; when it raises it has printed nothing, and when
    it returns it has printed exactly one message, which tells truthfully
    whether the data is the stored one or the synthetic one. *)
Theorem data_loader_reports_its_source (random_state : Z) (w : world) :
  let r := load_data random_state w in
  fs r.2 = fs w ∧
  (∀ p, r.1 ≠ Raises (FileNotFoundError p)) ∧
  match r.1 with
  | Raises _ => r.2 = w
  | Returns q =>
      (trace r.2 = trace w ++ [Printed MsgLoadedData] ∧
       first_failure (fs w) dataset_paths = None ∧
       q = (stored (fs w) X_train_path, stored (fs w) X_test_path,
            stored (fs w) y_train_path, stored (fs w) y_test_path))
      ∨ (trace r.2 = trace w ++ [Printed MsgFilesNotFound] ∧
         q = synthetic random_state)
  end.
Proof.
  cbv zeta. rewrite load_or_create_demo_data_run.
  destruct (first_failure (fs w) dataset_paths) as [[p|p c]|];
    cbn [fst snd fs trace]; split_and!; try done.
  - by right.
  - intros p'. by destruct c.
  - by left.
Qed.

End Reports.

(** X5.  The model loader never raises and never writes the store; it prints
    exactly one message, naming the path: that the model was loaded, when
    the value is the stored object, or the very error the load raised, when
    the value is the default. *)
Theorem model_loader_reports_its_source (path : string) (default : pyobj)
    (w : world) :
  ∃ o m,
    safe_load_model path default w
      = (Returns o, World (fs w) (trace w ++ [Printed m])) ∧
    ((m = MsgLoadedModel path ∧ joblib_load path w = (Returns o, w))
     ∨ (∃ e, m = MsgCouldNotLoad path e ∧ o = default ∧
             joblib_load path w = (Raises e, w))).
Proof.
  rewrite safe_load_model_run. unfold joblib_load, load_file.
  destruct (fs w !! path) as [[o|c]|]; eexists _, _; split; try done;
    [left|right|right]; eauto.
Qed.

(** ** Running the cells forward *)

Lemma best_model_path_not_data : best_model_path ∉ dataset_paths.
Proof.
  intros Hin. unfold dataset_paths in Hin.
  repeat (apply elem_of_cons in Hin as [Heq|Hin];
          [vm_compute in Heq; discriminate|]).
  by apply elem_of_nil in Hin.
Qed.

Section Forward.
Variable predict_row : estimator_class → params → dataset → row → label.
Variable draw_feature : Z → classification_args → nat → nat → float64.
Variable draw_label : Z → classification_args → nat → label.
Variable rng_key : Z → stream → Z → Z.
Variable np_random : Z.
Variable write_error : string → option exn.

Local Abbreviation load_data :=
  (load_or_create_demo_data draw_feature draw_label rng_key np_random).
Local Abbreviation synthetic :=
  (synthetic_demo_data draw_feature draw_label rng_key np_random).
Local Abbreviation section_1 :=
  (load_existing predict_row draw_feature draw_label rng_key np_random).
Local Abbreviation run_notebook :=
  (notebook predict_row draw_feature draw_label rng_key np_random
     write_error).
Local Abbreviation accuracy_of := (test_accuracy predict_row).

Lemma report_baseline_raises (X_train X_test y_train y_test old : pyobj) e w :
  accuracy_of old X_train y_train = Raises e
  ∨ ((∃ a, accuracy_of old X_train y_train = Returns a) ∧
     accuracy_of old X_test y_test = Raises e) →
  report_baseline predict_row X_train X_test y_train y_test old w
    = (Raises e, w).
Proof.
  unfold test_accuracy, report_baseline. monad_unfold.
  intros [H|[[a Ha] H]].
  - destruct (predict predict_row old X_train); [by rewrite H|by simplify_eq].
  - destruct (predict predict_row old X_train) as [p|]; [|done]. rewrite Ha.
    destruct (predict predict_row old X_test); [by rewrite H|by simplify_eq].
Qed.

(** Section 1 from its parts, when all of them succeed. *)
Lemma section_1_run w w1 w2 w3 X_train X_test y_train y_test loaded old
    a_train a_test :
  load_data 42 w = (Returns (X_train, X_test, y_train, y_test), w1) →
  safe_load_model best_model_path (Estimator default_model) w1
    = (Returns loaded, w2) →
  fit_if_fresh loaded X_train y_train w2 = (Returns old, w3) →
  accuracy_of old X_train y_train = Returns a_train →
  accuracy_of old X_test y_test = Returns a_test →
  section_1 w =
    (Returns (X_train, X_test, y_train, y_test, old),
     World (fs w3)
       (trace w3 ++ [Printed (MsgModelType (type_of old));
                     Printed (MsgTrainAccuracy a_train);
                     Printed (MsgTestAccuracy a_test)])).
Proof.
  intros H1 H2 H3 Ha Hb. rewrite load_existing_steps, H1, H2, H3.
  by rewrite (report_baseline_run predict_row _ _ _ _ _ _ _ w3 Ha Hb).
Qed.

(** Section 1 when the resolved model cannot report its baseline. *)
Lemma section_1_raises w w1 w2 w3 X_train X_test y_train y_test loaded old e :
  load_data 42 w = (Returns (X_train, X_test, y_train, y_test), w1) →
  safe_load_model best_model_path (Estimator default_model) w1
    = (Returns loaded, w2) →
  fit_if_fresh loaded X_train y_train w2 = (Returns old, w3) →
  accuracy_of old X_train y_train = Raises e →
  section_1 w = (Raises e, w3) ∧ run_notebook w = (Raises e, w3).
Proof.
  intros H1 H2 H3 Ha.
  assert (section_1 w = (Raises e, w3)) as Hs.
  { rewrite load_existing_steps, H1, H2, H3.
    by rewrite (report_baseline_raises _ _ _ _ _ e w3) by by left. }
  split; [done|]. by rewrite notebook_steps, Hs.
Qed.

Lemma run_rf_grid_search_returns X y d w :
  indexable X y = Returns d → 3 ≤ length d →
  ∃ rf evs combo,
    run_rf_grid_search predict_row X y w
      = (Returns rf, World (fs w) (trace w ++ evs)) ∧
    combo ∈ ParameterGrid rf_param_grid ∧
    best_estimator_ rf
      = Model RandomForestClassifier
              (combo ++ [("random_state", PInt 42)]) (Some d).
Proof.
  intros Hd Hlen.
  pose proof (run_rf_grid_search_outcome predict_row X y w) as H.
  destruct (GridSearchCV_fit_run predict_row rf_grid_search X y d w Hd)
    as (p & s & _ & Hrun); [simpl; lia|simpl; lia|done|done|].
  unfold run_rf_grid_search in *. monad_unfold. rewrite Hrun in *.
  cbn [best_params_ best_score_ best_estimator_ fs trace] in *.
  destruct H as (d' & evs & combo & Hd' & _ & Hcombo & Hbest & _ & Htr & _).
  eexists _, _, combo. split; [|split; [done|]].
  - rewrite <- !app_assoc. reflexivity.
  - assert (d' = d) as -> by congruence. exact Hbest.
Qed.

Lemma run_log_reg_grid_search_returns X y d w :
  indexable X y = Returns d → 3 ≤ length d →
  ∃ lr evs,
    run_log_reg_grid_search predict_row X y w
      = (Returns lr, World (fs w) (trace w ++ evs)).
Proof.
  intros Hd Hlen.
  destruct (GridSearchCV_fit_run predict_row log_reg_grid_search X y d w Hd)
    as (p & s & _ & Hrun); [simpl; lia|simpl; lia|done|done|].
  unfold run_log_reg_grid_search. monad_unfold. rewrite Hrun.
  cbn [best_params_ best_score_ fs trace]. eexists _, _.
  rewrite <- !app_assoc. reflexivity.
Qed.

End Forward.

(** ** Runs that finish, runs that stop, and the next run *)

Lemma first_failure_insert_other s p f paths :
  p ∉ paths →
  first_failure (<[p := f]> s) paths = first_failure s paths.
Proof.
  induction paths as [|q paths IH]; [done|]. intros Hp.
  apply not_elem_of_cons in Hp as [Hne Hp]. simpl.
  rewrite lookup_insert_ne by done. rewrite IH by done. done.
Qed.

Lemma stored_insert_other s p q f :
  p ≠ q → stored (<[p := f]> s) q = stored s q.
Proof. intros Hne. unfold stored. by rewrite lookup_insert_ne. Qed.

Lemma safe_load_model_usable w :
  (∀ o, fs w !! best_model_path = Some (Readable o) → usable o) →
  ∃ m msg,
    safe_load_model best_model_path (Estimator default_model) w
      = (Returns (Estimator m), World (fs w) (trace w ++ [Printed msg])) ∧
    usable (Estimator m).
Proof.
  intros Hmodel. rewrite safe_load_model_run.
  destruct (fs w !! best_model_path) as [[o|c]|] eqn:Hl.
  - pose proof (Hmodel o eq_refl) as Ho. destruct o as [| |m|]; try done.
    by eexists _, _.
  - eexists _, _. split; [done|]. by right.
  - eexists _, _. split; [done|]. by right.
Qed.

Section Whole.
Variable predict_row : estimator_class → params → dataset → row → label.
Variable draw_feature : Z → classification_args → nat → nat → float64.
Variable draw_label : Z → classification_args → nat → label.
Variable rng_key : Z → stream → Z → Z.
Variable np_random : Z.
Variable write_error : string → option exn.

Local Abbreviation load_data :=
  (load_or_create_demo_data draw_feature draw_label rng_key np_random).
Local Abbreviation synthetic :=
  (synthetic_demo_data draw_feature draw_label rng_key np_random).
Local Abbreviation section_1 :=
  (load_existing predict_row draw_feature draw_label rng_key np_random).
Local Abbreviation run_notebook :=
  (notebook predict_row draw_feature draw_label rng_key np_random
     write_error).
Local Abbreviation accuracy_of := (test_accuracy predict_row).

(** The data the loader returns does not depend on the best-model path. *)
Lemma load_data_insert_best random_state s f t t0 :
  (load_data random_state (World (<[best_model_path := f]> s) t)).1
  = (load_data random_state (World s t0)).1.
Proof.
  rewrite !load_or_create_demo_data_run. cbn [fs trace].
  rewrite first_failure_insert_other by apply best_model_path_not_data.
  destruct (first_failure s dataset_paths) as [[]|]; cbn [fst]; [done..|].
  pose proof best_model_path_not_data as Hne.
  rewrite !stored_insert_other; [done|intros Heq; apply Hne; rewrite Heq..];
    in_paths.
Qed.

(** A run on well-formed data with no readable model gets to the last
    statement: it returns, or the dump raises the file system's error. *)
Lemma notebook_completes (w w1 : world) (Xtr Xte : list row)
    (ytr yte : list label) (k : nat) :
  load_data 42 w
    = (Returns (NdArray Xtr, NdArray Xte, Labels ytr, Labels yte), w1) →
  0 < k → has_width k Xtr → has_width k Xte →
  3 ≤ length Xtr → length Xtr = length ytr →
  Xte ≠ [] → length Xte = length yte →
  (∀ o, fs w !! best_model_path ≠ Some (Readable o)) →
  (run_notebook w).1 = Returns tt
  ∨ ∃ e, write_error best_model_path = Some e ∧ (run_notebook w).1 = Raises e.
Proof.
  intros Hload Hk Hwtr Hwte Hlen3 Hlen HXte Hlte Hmodel.
  assert (fs w1 = fs w) as Hfs.
  { pose proof (load_data_fs draw_feature draw_label rng_key np_random 42 w)
      as H. by rewrite Hload in H. }
  assert (Xtr ≠ []) as HXtr by (intros ->; simpl in Hlen3; lia).
  destruct (indexable_arrays k Xtr ytr Hk Hwtr Hlen) as (Hd & Hdlen & Hfeat).
  specialize (Hfeat HXtr).
  assert (∃ msg,
            safe_load_model best_model_path (Estimator default_model) w1
            = (Returns (Estimator default_model),
               World (fs w1) (trace w1 ++ [Printed msg]))) as [msg Hsafe].
  { rewrite safe_load_model_run, Hfs.
    destruct (fs w !! best_model_path) as [[o|c]|] eqn:Hl; [|by eexists..].
    by destruct (Hmodel o). }
  pose proof (fit_default_run (NdArray Xtr) (Labels ytr)
                (World (fs w1) (trace w1 ++ [Printed msg]))) as Hfit.
  rewrite Hd in Hfit. rewrite <- fit_if_fresh_default in Hfit.
  destruct (zip Xtr ytr) as [|s d] eqn:Hzip; [simpl in Hdlen; lia|].
  assert (takes_width (Model RandomForestClassifier (m_params default_model)
                         (Some (s :: d))) k) as Htakes by (by eexists).
  destruct (test_accuracy_fitted predict_row _ k Xtr ytr Htakes)
    as [a1 Ha1]; [done..|].
  destruct (test_accuracy_fitted predict_row _ k Xte yte Htakes)
    as [a2 Ha2]; [done..|].
  pose proof (section_1_run predict_row draw_feature draw_label rng_key
                np_random _ _ _ _ _ _ _ _ _ _ _ _ Hload Hsafe Hfit Ha1 Ha2)
    as Hs1.
  rewrite notebook_steps, Hs1.
  match goal with
  | |- context [run_rf_grid_search _ _ _ ?W] =>
      destruct (run_rf_grid_search_returns predict_row _ _ _ W Hd)
        as (rf & evs2 & combo & Hrf & Hcombo & Hbest); [simpl in *; lia|]
  end.
  rewrite Hrf.
  match goal with
  | |- context [run_log_reg_grid_search _ _ _ ?W] =>
      destruct (run_log_reg_grid_search_returns predict_row _ _ _ W Hd)
        as (lr & evs3 & Hlr); [simpl in *; lia|]
  end.
  rewrite Hlr.
  destruct (test_accuracy_fitted predict_row (best_estimator_ rf) k Xte yte)
    as [a3 Ha3]; [rewrite Hbest; by eexists|done..|].
  rewrite (compare_and_persist_run predict_row write_error _ _ _ _ _ _ _
             Ha2 Ha3).
  destruct (pyfloat_ge _ _); [|by left].
  destruct (write_error best_model_path) as [e|]; [right|by left].
  by exists e.
Qed.

Lemma first_failure_absent s paths p :
  first_failure s paths = Some (Absent p) → p ∈ paths ∧ s !! p = None.
Proof.
  induction paths as [|q paths IH]; [done|]. simpl.
  destruct (s !! q) as [[o|c]|] eqn:Hq.
  - intros H. destruct (IH H). split; [by right|done].
  - done.
  - intros [= <-]. split; [left|done].
Qed.

Lemma notebook_store (w : world) (p : string) :
  p ≠ best_model_path → fs (run_notebook w).2 !! p = fs w !! p.
Proof.
  intros Hp.
  pose proof (notebook_outcome predict_row draw_feature draw_label rng_key
                np_random write_error w) as H.
  destruct (load_data 42 w) as [[[[[X_train X_test] y_train] y_test]|e] w1];
    [|by rewrite H].
  destruct H as (pre & _ & [[-> _]|(combo & d & rf & a & old & a_old & H)]);
    [done|].
  cbv zeta in H. destruct H as (_ & _ & _ & _ & _ & _ & _ & _ & _ & _ & ->).
  cbn [snd fs]. by rewrite lookup_insert_ne.
Qed.

(** A fitted model at the best-model path is the incumbent of the run. *)
Lemma section_1_loaded_fitted (w : world) (m : model)
    (q : pyobj * pyobj * pyobj * pyobj * pyobj) :
  fs w !! best_model_path = Some (Readable (Estimator m)) →
  is_Some (m_fitted m) →
  (section_1 w).1 = Returns q → q.2 = Estimator m.
Proof.
  intros Hm Hfit. rewrite load_existing_steps.
  pose proof (load_data_fs draw_feature draw_label rng_key np_random 42 w)
    as Hfs.
  destruct (load_data 42 w) as [[[[[X_train X_test] y_train] y_test]|e] w1];
    [|done].
  cbn [snd] in Hfs. rewrite safe_load_model_run, Hfs, Hm.
  rewrite fit_if_fresh_fitted by done.
  unfold mret at 1, M_ret at 1, ret at 1.
  destruct (report_baseline _ _ _ _ _ _ _) as [[[]|e] w4]; [|done].
  by intros [= <-].
Qed.

(** C3.  When the best-model path holds the incumbent, the
    compare-and-persist step touches no other path, and afterwards the
    store is unchanged, so that the path holds the incumbent as before, or
    the path holds the candidate, whose test accuracy is then at least the
    incumbent's.  The same holds of a whole run of the notebook from a store
    whose best-model path holds a fitted model: that model is the incumbent,
    the other cells do not write the store, and the path ends up holding
    that model, untouched, or a model at least as accurate on the test
    partition of the run.  From any store, a run that changes the store has
    put at the path a model at least as accurate as the incumbent that
    Section 1 resolved. *)
Theorem persisted_model_never_regresses :
  (∀ (old new X_test y_test : pyobj) (w : world),
     fs w !! best_model_path = Some (Readable old) →
     let w' := (compare_and_persist predict_row write_error old new X_test
                  y_test w).2 in
     (∀ p, p ≠ best_model_path → fs w' !! p = fs w !! p) ∧
     ((fs w' = fs w ∧ fs w' !! best_model_path = Some (Readable old))
      ∨ (fs w' !! best_model_path = Some (Readable new) ∧
         ∃ a_old a_new : Q,
           test_accuracy predict_row old X_test y_test
             = Returns (Finite a_old) ∧
           test_accuracy predict_row new X_test y_test
             = Returns (Finite a_new) ∧
           (a_old <= a_new)%Q)))
  ∧
  (∀ (w : world) (m : model),
     fs w !! best_model_path = Some (Readable (Estimator m)) →
     is_Some (m_fitted m) →
     let w' := (run_notebook w).2 in
     (∀ p, p ≠ best_model_path → fs w' !! p = fs w !! p) ∧
     ((fs w' = fs w
       ∧ fs w' !! best_model_path = Some (Readable (Estimator m)))
      ∨ ∃ (X_train X_test y_train y_test new : pyobj) (w1 : world)
          (a_old a_new : Q),
          load_data 42 w = (Returns (X_train, X_test, y_train, y_test), w1) ∧
          fs w' !! best_model_path = Some (Readable new) ∧
          test_accuracy predict_row (Estimator m) X_test y_test
            = Returns (Finite a_old) ∧
          test_accuracy predict_row new X_test y_test
            = Returns (Finite a_new) ∧
          (a_old <= a_new)%Q))
  ∧
  (∀ w : world,
     let w' := (run_notebook w).2 in
     fs w' = fs w
     ∨ ∃ (X_train X_test y_train y_test old new : pyobj) (a_old a_new : Q),
         (section_1 w).1
           = Returns (X_train, X_test, y_train, y_test, old) ∧
         fs w' !! best_model_path = Some (Readable new) ∧
         test_accuracy predict_row old X_test y_test
           = Returns (Finite a_old) ∧
         test_accuracy predict_row new X_test y_test
           = Returns (Finite a_new) ∧
         (a_old <= a_new)%Q).
Proof.
  assert (∀ w : world,
     let w' := (run_notebook w).2 in
     fs w' = fs w
     ∨ ∃ (X_train X_test y_train y_test old new : pyobj) (w1 : world)
         (a_old a_new : Q),
         load_data 42 w = (Returns (X_train, X_test, y_train, y_test), w1) ∧
         (section_1 w).1
           = Returns (X_train, X_test, y_train, y_test, old) ∧
         fs w' !! best_model_path = Some (Readable new) ∧
         test_accuracy predict_row old X_test y_test
           = Returns (Finite a_old) ∧
         test_accuracy predict_row new X_test y_test
           = Returns (Finite a_new) ∧
         (a_old <= a_new)%Q) as Hrun.
  { intros w. cbv zeta.
    pose proof (notebook_outcome predict_row draw_feature draw_label rng_key
                  np_random write_error w) as H.
    destruct (load_data 42 w) as [[[[[X_train X_test] y_train] y_test]|e] w1]
      eqn:Hload; [|left; by rewrite H].
    destruct H as (pre & _ & [[Hfs _]|(combo & d & rf & a & old & a_old & H)]);
      [by left|].
    cbv zeta in H.
    destruct H as (_ & _ & _ & _ & _ & Hnew & Hsec & Hold & Hle & _ & ->).
    right. eexists X_train, X_test, y_train, y_test, old, _, w1, a_old, a.
    split_and!; try done. cbn [snd fs]. apply lookup_insert_eq. }
  split_and!.
  - intros old new X_test y_test w Hstored. cbv zeta.
    destruct (compare_and_persist_outcome predict_row write_error old new
                X_test y_test w)
      as [(Hfs & _)|(a_old & a_new & Ho & Hn & Hle & _ & ->)];
      cbv zeta in *.
    + rewrite Hfs. split; [done|]. by left.
    + cbn [snd fs]. split; [intros p Hp; by rewrite lookup_insert_ne|].
      right. split; [apply lookup_insert_eq|]. by exists a_old, a_new.
  - intros w m Hm Hfit. cbv zeta. split; [intros p Hp; by apply notebook_store|].
    destruct (Hrun w)
      as [Hfs|(X_train & X_test & y_train & y_test & old & new & w1 & a_old
               & a_new & Hload & Hsec & Hpath & Ho & Hn & Hle)];
      cbv zeta in *.
    + left. split; [done|]. by rewrite Hfs.
    + right. exists X_train, X_test, y_train, y_test, new, w1, a_old, a_new.
      pose proof (section_1_loaded_fitted w m _ Hm Hfit Hsec) as Hinc.
      cbn [snd] in Hinc. subst old. by split_and!.
  - intros w. cbv zeta.
    destruct (Hrun w)
      as [Hfs|(X_train & X_test & y_train & y_test & old & new & w1 & a_old
               & a_new & Hload & Hsec & Hpath & Ho & Hn & Hle)];
      [by left|right].
    by exists X_train, X_test, y_train, y_test, old, new, a_old, a_new.
Qed.

(** X6.  When a data file is missing (and the files before it load) and
    nothing readable is at the best-model path, the notebook gets to its
    last statement, whatever the library draws and predicts: the run
    returns, or the final dump raises the error of a path that cannot be
    written.  The synthetic data is not written: the file is still missing
    afterwards. *)
Theorem demo_runs_when_files_are_missing (w : world) (p : string) :
  first_failure (fs w) dataset_paths = Some (Absent p) →
  (∀ o, fs w !! best_model_path ≠ Some (Readable o)) →
  ((run_notebook w).1 = Returns tt
   ∨ ∃ e, write_error best_model_path = Some e
          ∧ (run_notebook w).1 = Raises e) ∧
  (write_error best_model_path = None → (run_notebook w).1 = Returns tt) ∧
  fs (run_notebook w).2 !! p = None.
Proof.
  intros Hff Hmodel.
  destruct (synthetic_split draw_feature draw_label rng_key np_random 42)
    as (Xtr & Xte & ytr & yte & _ & Hsyn & H1 & H2 & H3 & H4 & H5 & H6 & _).
  assert ((run_notebook w).1 = Returns tt
          ∨ ∃ e, write_error best_model_path = Some e
                 ∧ (run_notebook w).1 = Raises e) as Hrun.
  { eapply (notebook_completes w _ Xtr Xte ytr yte 10);
      [|lia|done|done|lia|lia| |lia|done].
    - rewrite load_or_create_demo_data_run, Hff, Hsyn. done.
    - intros ->. simpl in H3. lia. }
  split_and!; [done| |].
  - intros Hwrite. destruct Hrun as [?|(e & He & _)]; [done|congruence].
  - destruct (first_failure_absent _ _ _ Hff) as [Hin Hnone].
    rewrite notebook_store; [done|]. intros ->.
    by apply best_model_path_not_data.
Qed.

(** X8.  A run that saved leaves a store on which the next run changes
    nothing: it loads the same data, takes the saved forest as the
    incumbent, finds the same candidate, ties with it and saves the same
    object again. *)
Theorem rerun_after_save_is_stable (w : world) :
  Exists is_dump (drop (length (trace w)) (trace (run_notebook w).2)) →
  let w' := (run_notebook w).2 in
  ∃ best,
    fs w' !! best_model_path = Some (Readable best) ∧
    (run_notebook w').1 = Returns tt ∧
    fs (run_notebook w').2 = fs w' ∧
    last (trace (run_notebook w').2) = Some (Dumped best_model_path best).
Proof.
  intros Hdump. cbv zeta.
  pose proof (notebook_outcome predict_row draw_feature draw_label rng_key
                np_random write_error w) as H.
  destruct (load_data 42 w) as [[[[[X_train X_test] y_train] y_test]|e] w1]
    eqn:Hload.
  2:{ cbn beta iota in H. rewrite H in Hdump. cbn [snd] in Hdump.
      rewrite drop_all in Hdump. by apply Exists_nil in Hdump. }
  destruct H as (pre & Hpre & [[_ Htr]|(combo & d & rf & a & old & a_old
                                        & Hcombo & Hd & Hlen & H)]).
  { rewrite Htr, drop_app_length in Hdump.
    apply Exists_exists in Hdump as (e & Hin & He).
    rewrite Forall_forall in Hpre.
    by destruct (training_event_no_dump _ _ _ (Hpre e Hin)). }
  cbv zeta in H.
  destruct H as (Hrf & Hbest & Hacc & _ & _ & _ & Hwrite & Hrun).
  rewrite Hrun. cbn [snd fs trace].
  set (best := Estimator (Model RandomForestClassifier
                 (combo ++ [("random_state", PInt 42)]) (Some d))) in *.
  set (t' := trace w ++ pre ++ [Dumped best_model_path best]).
  set (w' := World (<[best_model_path := Readable best]> (fs w)) t').
  exists best. split; [apply lookup_insert_eq|].
  (* the second run *)
  pose proof (load_data_insert_best 42 (fs w) (Readable best) t' (trace w))
    as Hsame.
  change (World (<[best_model_path:=Readable best]> (fs w)) t') with w'
    in Hsame.
  replace (World (fs w) (trace w)) with w in Hsame by by destruct w.
  rewrite Hload in Hsame. cbn [fst] in Hsame.
  pose proof (load_data_fs draw_feature draw_label rng_key np_random 42 w')
    as Hfs1.
  destruct (load_data 42 w') as [q w1'] eqn:Hload'. cbn [fst snd] in *.
  subst q.
  assert (safe_load_model best_model_path (Estimator default_model) w1'
          = (Returns best,
             World (fs w1')
               (trace w1' ++ [Printed (MsgLoadedModel best_model_path)])))
    as Hsafe.
  { rewrite safe_load_model_run, Hfs1. unfold w' at 1. cbn [fs].
    by rewrite lookup_insert_eq. }
  assert (∀ w0, fit_if_fresh best X_train y_train w0 = (Returns best, w0))
    as Hfit.
  { intros w0. unfold best. by rewrite fit_if_fresh_fitted. }
  destruct (indexable_inv _ _ _ Hd)
    as (rows & ls & -> & -> & Hrl & Hzip & Hwidth & Hcols).
  assert (3 ≤ length rows) as Hrows.
  { rewrite Hzip, length_zip_with in Hlen. lia. }
  assert (rows ≠ []) as Hne by (intros ->; simpl in Hrows; lia).
  destruct Hcols as [?|Hcols]; [done|].
  destruct (test_accuracy_fitted predict_row
              (Model RandomForestClassifier
                 (combo ++ [("random_state", PInt 42)]) (Some d))
              (n_columns rows) rows ls)
    as [a1 Ha1]; [|done..|].
  { exists d. split; [done|]. rewrite Hzip. by apply n_features_in_zip. }
  fold best in Ha1.
  pose proof (section_1_run predict_row draw_feature draw_label rng_key
                np_random _ _ _ _ _ _ _ _ _ _ _ _ Hload' Hsafe (Hfit _)
                Ha1 Hacc) as Hs1.
  rewrite notebook_steps, Hs1.
  match goal with
  | |- context [run_rf_grid_search _ _ _ ?W] =>
      destruct (run_rf_grid_search_returns predict_row _ _ _ W Hd)
        as (rf' & evs2 & combo' & Hrf' & _ & _); [lia|];
      pose proof (Hrf W) as HrfW
  end.
  rewrite Hrf' in HrfW |- *. cbn [fst] in HrfW. injection HrfW as ->.
  match goal with
  | |- context [run_log_reg_grid_search _ _ _ ?W] =>
      destruct (run_log_reg_grid_search_returns predict_row _ _ _ W Hd)
        as (lr & evs3 & Hlr); [lia|]
  end.
  rewrite Hlr, Hbest.
  rewrite (compare_and_persist_run predict_row write_error _ _ _ _ _ _ _
             Hacc Hacc), Hwrite.
  assert (pyfloat_ge (Finite a) (Finite a) = true) as ->.
  { apply Qle_bool_iff, Qle_refl. }
  cbn [fst snd fs trace]. split; [done|]. split.
  - rewrite Hfs1. unfold w'. cbn [fs]. apply insert_insert_eq.
  - by rewrite last_app.
Qed.

(** X9.  An object at the best-model path that the baseline cell cannot use
    is still taken as the model: an unfitted model that is not a forest, or
    an array, is reported as loaded, nothing is fitted in its place, and the
    run stops in the baseline cell with [NotFittedError] or
    [AttributeError], before any search and without writing the store. *)
Theorem loaded_unusable_object_stops_the_run (w w1 : world)
    (q : pyobj * pyobj * pyobj * pyobj) (o : pyobj) :
  load_data 42 w = (Returns q, w1) →
  fs w !! best_model_path = Some (Readable o) →
  match o with
  | Estimator m => m_fitted m = None ∧ m_class m ≠ RandomForestClassifier
  | NdArray _ | Labels _ => True
  | PyOther => False
  end →
  run_notebook w
  = (Raises (match o with
             | Estimator _ => NotFittedError
             | _ => AttributeError
             end),
     World (fs w) (trace w1 ++ [Printed (MsgLoadedModel best_model_path)])).
Proof.
  intros Hload Hm Ho. destruct q as [[[X_train X_test] y_train] y_test].
  assert (fs w1 = fs w) as Hfs.
  { pose proof (load_data_fs draw_feature draw_label rng_key np_random 42 w)
      as H. by rewrite Hload in H. }
  assert (safe_load_model best_model_path (Estimator default_model) w1
          = (Returns o,
             World (fs w)
               (trace w1 ++ [Printed (MsgLoadedModel best_model_path)])))
    as Hsafe.
  { by rewrite safe_load_model_run, Hfs, Hm. }
  assert (∀ w0, fit_if_fresh o X_train y_train w0 = (Returns o, w0)) as Hfit.
  { intros w0. unfold fit_if_fresh.
    replace (isinstance_RandomForestClassifier o) with false;
      [by rewrite andb_false_r|].
    destruct o as [| |m|]; try done. destruct Ho as [_ Hc].
    unfold isinstance_RandomForestClassifier. by destruct (m_class m). }
  refine (proj2 (section_1_raises predict_row draw_feature draw_label rng_key
                   np_random write_error _ _ _ _ _ _ _ _ _ _ _ Hload Hsafe
                   (Hfit _) _)).
  unfold test_accuracy, predict. destruct o as [| |m|]; try done.
  destruct Ho as [-> _]. done.
Qed.

(** X10.  The guard of the baseline cell cannot tell a fresh default from
    a loaded forest that was saved unfitted: such a forest is fitted on the
    training partition right after it is reported as loaded, and the
    incumbent is that forest with the hyperparameters it was saved with. *)
Theorem loaded_unfitted_forest_is_fitted (w w1 : world)
    (X_train X_test y_train y_test : pyobj) (m : model) (s : row * label)
    (d : dataset) :
  load_data 42 w = (Returns (X_train, X_test, y_train, y_test), w1) →
  fs w !! best_model_path = Some (Readable (Estimator m)) →
  m_class m = RandomForestClassifier → m_fitted m = None →
  indexable X_train y_train = Returns (s :: d) →
  let fitted :=
    Estimator (Model RandomForestClassifier (m_params m) (Some (s :: d))) in
  (∃ evs,
     trace (section_1 w).2
     = trace w1 ++ [Printed (MsgLoadedModel best_model_path);
                    Fitted RandomForestClassifier (m_params m) (s :: d)]
       ++ evs) ∧
  ∀ q, (section_1 w).1 = Returns q →
       q = (X_train, X_test, y_train, y_test, fitted).
Proof.
  intros Hload Hm Hc Hfit Hd fitted.
  assert (fs w1 = fs w) as Hfs.
  { pose proof (load_data_fs draw_feature draw_label rng_key np_random 42 w)
      as H. by rewrite Hload in H. }
  rewrite load_existing_steps, Hload, safe_load_model_run, Hfs, Hm.
  set (w2 := World (fs w) _).
  assert (fit_if_fresh (Estimator m) X_train y_train w2
          = (Returns fitted,
             World (fs w2)
               (trace w2 ++ [Fitted RandomForestClassifier (m_params m)
                               (s :: d)]))) as ->.
  { unfold fit_if_fresh, hasattr_feature_importances,
      isinstance_RandomForestClassifier.
    rewrite Hc, Hfit, bool_decide_false by by intros [? ?].
    cbn [negb andb]. unfold fit. monad_unfold. rewrite Hd. simpl.
    by rewrite Hc. }
  destruct (report_baseline_emits predict_row (λ _, True) X_train X_test
              y_train y_test fitted ltac:(done)) as [Hrep _].
  match goal with
  | |- context [report_baseline _ _ _ _ _ _ ?W] => specialize (Hrep W)
  end.
  destruct (report_baseline _ _ _ _ _ _ _) as [[[]|e] w4];
    destruct Hrep as (evs & Htr & _); cbn [fst snd fs trace] in *.
  - split; [|by intros q [= <-]]. exists evs. rewrite Htr. unfold w2.
    cbn [trace]. by rewrite <- !app_assoc.
  - split; [|done]. exists evs. rewrite Htr. unfold w2.
    cbn [trace]. by rewrite <- !app_assoc.
Qed.

(** X11.  The loader does not check that the stored files fit together: a
    training matrix and a label vector of different lengths are returned as
    they are, and the run stops in the baseline cell with [ValueError]
    -- from the fit of a forest that is not fitted yet, or from the
    accuracy of a fitted model -- with nothing fitted, nothing written and
    no search run. *)
Theorem inconsistent_training_data_stops_the_run (w w1 : world)
    (Xtr : list row) (ytr : list label) (X_test y_test : pyobj) :
  load_data 42 w = (Returns (NdArray Xtr, X_test, Labels ytr, y_test), w1) →
  length Xtr ≠ length ytr →
  (∀ o, fs w !! best_model_path = Some (Readable o) → usable o) →
  ∃ msg,
    run_notebook w
    = (Raises ValueError, World (fs w) (trace w1 ++ [Printed msg])).
Proof.
  intros Hload Hlen Hmodel.
  assert (fs w1 = fs w) as Hfs.
  { pose proof (load_data_fs draw_feature draw_label rng_key np_random 42 w)
      as H. by rewrite Hload in H. }
  destruct (safe_load_model_usable w1) as (m & msg & Hsafe & Hus);
    [by rewrite Hfs|].
  exists msg. rewrite Hfs in Hsafe.
  destruct (m_fitted m) as [d0|] eqn:Hfit.
  - refine (proj2 (section_1_raises predict_row draw_feature draw_label
                     rng_key np_random write_error _ _ _ _ _ _ _ _ _
                     (Estimator m) _ Hload Hsafe _ _)).
    + rewrite fit_if_fresh_fitted by (by rewrite Hfit). done.
    + unfold test_accuracy, predict. rewrite Hfit.
      destruct Xtr as [|r rows]; [done|].
      destruct (decide _); [|done]. unfold accuracy_score.
      rewrite length_fmap. by rewrite decide_False by done.
  - destruct Hus as [[? Hm]|Hc]; [by rewrite Hfit in Hm|].
    rewrite notebook_steps, load_existing_steps, Hload, Hsafe.
    unfold fit_if_fresh, hasattr_feature_importances,
      isinstance_RandomForestClassifier.
    rewrite Hc, Hfit, bool_decide_false by by intros [? ?].
    cbn [negb andb]. unfold fit. monad_unfold. unfold indexable.
    rewrite decide_False; [done|]. by intros (? & _).
Qed.

End Whole.

(** ** Accuracies *)

Lemma matches_le (y_true y_pred : list label) :
  matches y_true y_pred ≤ length y_true.
Proof.
  unfold matches. etrans; [apply length_filter|].
  rewrite length_zip_with. lia.
Qed.

Lemma fraction_bounds (k n : nat) :
  k ≤ n → 0 < n → (0 <= fraction k n <= 1)%Q.
Proof.
  intros Hk Hn. unfold fraction, Qle. cbn [Qnum Qden].
  destruct n as [|n]; [lia|].
  rewrite <- Pos.of_nat_succ, Zpos_P_of_succ_nat. lia.
Qed.

Section Accuracy.
Variable predict_row : estimator_class → params → dataset → row → label.

(** X12.  Every accuracy the notebook prints or compares -- the value of
    [accuracy_score(y, model.predict(X))] when it has one -- is a fraction
    between 0 and 1, never NaN: the decision to save always compares two
    proper numbers. *)
Theorem accuracy_is_a_fraction (o X y : pyobj) (a : pyfloat) :
  test_accuracy predict_row o X y = Returns a →
  ∃ q, a = Finite q ∧ (0 <= q <= 1)%Q.
Proof.
  unfold test_accuracy, predict, accuracy_score.
  destruct o as [| |m|]; try done. destruct (m_fitted m) as [d|]; [|done].
  destruct X as [[|r rows]| | |]; try done.
  destruct (decide _) as [_|]; [|done].
  destruct y as [|ys| |]; try done.
  destruct (decide _) as [Hlen|]; [|done]. intros [= <-].
  rewrite length_fmap in Hlen.
  destruct ys as [|l ys]; [done|]. eexists. split; [done|].
  apply fraction_bounds; [apply matches_le|simpl; lia].
Qed.

End Accuracy.

Local Open Scope string_scope.
Local Open Scope nat_scope.

(** * The theorems at concrete inputs *)

Local Abbreviation toy_notebook :=
  (notebook Toy.predict_row Toy.draw_feature Toy.draw_label Toy.rng_key
     Toy.np_random Toy.write_error).
Local Abbreviation toy_load_data :=
  (load_or_create_demo_data Toy.draw_feature Toy.draw_label Toy.rng_key
     Toy.np_random).
Local Abbreviation toy_section_1 :=
  (load_existing Toy.predict_row Toy.draw_feature Toy.draw_label Toy.rng_key
     Toy.np_random).
Local Abbreviation toy_compare :=
  (compare_and_persist Toy.predict_row Toy.write_error).

Example X_train_path_value :
  X_train_path = "/dbfs/FileStore/X_train_transformed.npy".
Proof. reflexivity. Qed.

Example grid_sizes :
  length (ParameterGrid rf_param_grid) = 18 ∧
  length (ParameterGrid log_reg_param_grid) = 4.
Proof. split; reflexivity. Qed.

(** Three folds of four samples: the first fold validates on two. *)
Example kfold_3_of_4 :
  (kfold 3 [([1], 0); ([2], 1); ([3], 0); ([4], 1)]%Z).*2
  = [[([1], 0); ([2], 1)]; [([3], 0)]; [([4], 1)]]%Z.
Proof. reflexivity. Qed.

(** Seven samples in classes of 4, 2 and 1, five of them for training: the
    shares 2.86, 1.43 and 0.71 become 3, 1 and 1. *)
Example approximate_mode_7 :
  approximate_mode (λ _, 0%Z) [0; 1; 2]%Z
    (class_count [0; 1; 0; 1; 0; 0; 2]%Z) 5 <$> [0; 1; 2]%Z
  = [3; 1; 1].
Proof. reflexivity. Qed.

(** A whole run on a store with data and no model: the tuned forest ties
    with the fitted default on the test set and is saved. *)
Example notebook_on_small_store :
  let r := toy_notebook (World Toy.small_store []) in
  r.1 = Returns tt ∧
  last (trace r.2)
    = Some (Dumped best_model_path
              (Estimator
                 (Model RandomForestClassifier
                    [("n_estimators", PInt 100); ("max_depth", PNone);
                     ("min_samples_leaf", PInt 1); ("random_state", PInt 42)]
                    (Some [([1], 0); ([2], 1); ([3], 0); ([4], 1)]%Z)))).
Proof. vm_compute. split; reflexivity. Qed.

(** A whole run from an empty store: synthetic data, fitted default. *)
Example notebook_on_empty_store :
  let r := toy_notebook Toy.empty_world in
  r.1 = Returns tt ∧ is_Some (fs r.2 !! best_model_path) ∧
  head (trace r.2) = Some (Printed MsgFilesNotFound).
Proof. vm_compute. split_and!; [reflexivity|by eexists|reflexivity]. Qed.

(** The same run where the directory [/dbfs/FileStore] does not exist: the
    loads fall back, the searches run, and the final dump raises; the store
    is still empty. *)
Example notebook_without_directory :
  let r := notebook Toy.predict_row Toy.draw_feature Toy.draw_label
             Toy.rng_key Toy.np_random Toy.no_directory Toy.empty_world in
  r.1 = Raises (FileNotFoundError best_model_path) ∧ fs r.2 = ∅ ∧
  last (trace r.2) = Some (Printed MsgSavingNewBest).
Proof. vm_compute. split_and!; reflexivity. Qed.

(** An incumbent fitted on one feature, a candidate fitted on two and a test
    array of two columns: the comparison raises at the incumbent's
    prediction and nothing is dumped. *)
Example compare_with_wrong_width :
  toy_compare (Estimator Toy.always_1) (Estimator Toy.two_features)
    (NdArray [[5; 6]]%Z) (Labels [1]%Z) Toy.empty_world
  = (Raises ValueError, Toy.empty_world).
Proof. reflexivity. Qed.

(** Training rows of one column and test rows of two: the default forest is
    fitted, and the baseline cell raises at its prediction on the test
    array. *)
Example section_1_with_wrong_test_width :
  let r := toy_section_1 (World Toy.wide_test_store []) in
  r.1 = Raises ValueError ∧
  last (trace r.2)
    = Some (Fitted RandomForestClassifier (m_params default_model)
              [([1], 0); ([2], 1); ([3], 0); ([4], 1)]%Z).
Proof. vm_compute. split; reflexivity. Qed.

(** Without a seed the draws follow numpy's global generator. *)
Example unseeded_split_follows_the_global_generator :
  train_test_split Toy.rng_key 0 [[1]; [2]; [3]; [4]]%Z [0; 1; 0; 1]%Z
    (1 # 2) None
  ≠ train_test_split Toy.rng_key 3 [[1]; [2]; [3]; [4]]%Z [0; 1; 0; 1]%Z
      (1 # 2) None.
Proof. vm_compute. discriminate. Qed.

(** C2, as stated, fails: a best-model file that is present but malformed
    makes [safe_load_model] return the default instead of raising, and a
    malformed label file behind an absent feature file makes the data
    loader return the synthetic data instead of raising. *)
Lemma malformed_file_falls_back :
  let w_model := World {[ best_model_path := Corrupt BadPickle ]} [] in
  let w_data := World {[ y_test_path := Corrupt BadPickle ]} [] in
  fs w_model !! best_model_path = Some (Corrupt BadPickle) ∧
  (safe_load_model best_model_path (Estimator default_model) w_model).1
    = Returns (Estimator default_model) ∧
  fs w_data !! y_test_path = Some (Corrupt BadPickle) ∧
  (load_or_create_demo_data Toy.draw_feature Toy.draw_label Toy.rng_key
     Toy.np_random 42 w_data).1
    = Returns (synthetic_demo_data Toy.draw_feature Toy.draw_label
                 Toy.rng_key Toy.np_random 42).
Proof.
  cbv zeta. rewrite safe_load_model_run, load_or_create_demo_data_run.
  split_and!; reflexivity.
Qed.

(** C1 on a tie: both models score 1/2 and the candidate is saved. *)
Lemma persist_iff_not_worse_witness :
  takes_width Toy.always_0 1 ∧
  takes_width Toy.always_1 1 ∧
  0 < 1 ∧
  has_width 1 [[5]; [6]]%Z ∧
  [[5]; [6]]%Z ≠ ([] : list row) ∧
  length ([[5]; [6]]%Z : list row) = length ([0; 1]%Z : list label) ∧
  Toy.write_error best_model_path = None ∧
  fs (toy_compare (Estimator Toy.always_0) (Estimator Toy.always_1)
        (NdArray [[5]; [6]]%Z) (Labels [0; 1]%Z)
        Toy.empty_world).2 !! best_model_path
    = Some (Readable (Estimator Toy.always_1)).
Proof.
  assert (takes_width Toy.always_0 1) as H1 by (eexists; split; reflexivity).
  assert (takes_width Toy.always_1 1) as H2 by (eexists; split; reflexivity).
  assert (0 < 1) as Hk by lia.
  assert (has_width 1 [[5]; [6]]%Z) as Hw by (repeat constructor).
  assert ([[5]; [6]]%Z ≠ ([] : list row)) as H3 by discriminate.
  assert (length ([[5]; [6]]%Z : list row)
          = length ([0; 1]%Z : list label)) as H4 by reflexivity.
  assert (Toy.write_error best_model_path = None) as H5 by reflexivity.
  split_and!; [exact H1|exact H2|exact Hk|exact Hw|exact H3|exact H4|exact H5|].
  destruct (persist_iff_not_worse Toy.predict_row Toy.write_error Toy.always_0
              Toy.always_1 [[5]; [6]]%Z [0; 1]%Z 1 Toy.empty_world
              H1 H2 Hk Hw H3 H4 H5)
    as (a_old & a_new & Ho & Hn & _ & _ & _ & Htie & _).
  apply Htie. vm_compute in Ho, Hn.
  injection Ho as <-. injection Hn as <-. reflexivity.
Defined.

(** C3 on the small store with a fitted model at the best-model path: the
    run leaves every other path alone. *)
Lemma persisted_model_never_regresses_witness :
  fs (World Toy.incumbent_store []) !! best_model_path
    = Some (Readable (Estimator Toy.always_0)) ∧
  is_Some (m_fitted Toy.always_0) ∧
  ∀ p, p ≠ best_model_path →
       fs (toy_notebook (World Toy.incumbent_store [])).2 !! p
       = Toy.incumbent_store !! p.
Proof.
  assert (fs (World Toy.incumbent_store []) !! best_model_path
          = Some (Readable (Estimator Toy.always_0))) as H1
    by (vm_compute; reflexivity).
  assert (is_Some (m_fitted Toy.always_0)) as H2 by (by eexists).
  split_and!; [exact H1|exact H2|].
  exact (proj1 (proj1 (proj2 (persisted_model_never_regresses Toy.predict_row
                                Toy.draw_feature Toy.draw_label Toy.rng_key
                                Toy.np_random Toy.write_error))
                  (World Toy.incumbent_store []) Toy.always_0 H1 H2)).
Defined.

(** C4 from an empty store and from a store that lacks the test labels,
    with the global generator in two different states. *)
Lemma synthetic_fallback_deterministic_witness :
  first_failure (fs Toy.empty_world) dataset_paths
    = Some (Absent X_train_path) ∧
  first_failure (fs (World Toy.partial_store [Printed MsgLoadedData]))
    dataset_paths = Some (Absent y_test_path) ∧
  (load_or_create_demo_data Toy.draw_feature Toy.draw_label Toy.rng_key 99 42
     (World Toy.partial_store [Printed MsgLoadedData])).1
  = (load_or_create_demo_data Toy.draw_feature Toy.draw_label Toy.rng_key 0 42
       Toy.empty_world).1.
Proof.
  assert (first_failure (fs Toy.empty_world) dataset_paths
          = Some (Absent X_train_path)) as H1 by reflexivity.
  assert (first_failure (fs (World Toy.partial_store [Printed MsgLoadedData]))
            dataset_paths = Some (Absent y_test_path)) as H2
    by (vm_compute; reflexivity).
  split_and!; [exact H1|exact H2|].
  exact (proj1 (synthetic_fallback_deterministic Toy.draw_feature
                  Toy.draw_label Toy.rng_key 42 0 99 _ _ _ _ H1 H2)).
Defined.

(** C5 on a store with data and no model: the default forest is fitted on
    the four training samples. *)
Lemma fresh_default_fitted_loaded_kept_witness :
  toy_load_data 42 (World Toy.small_store [])
  = (Returns (NdArray [[1]; [2]; [3]; [4]]%Z, NdArray [[5]; [6]]%Z,
              Labels [0; 1; 0; 1]%Z, Labels [0; 1]%Z),
     World Toy.small_store [Printed MsgLoadedData]) ∧
  0 < 1 ∧
  has_width 1 [[1]; [2]; [3]; [4]]%Z ∧
  has_width 1 [[5]; [6]]%Z ∧
  [[1]; [2]; [3]; [4]]%Z ≠ ([] : list row) ∧
  length ([[1]; [2]; [3]; [4]]%Z : list row)
    = length ([0; 1; 0; 1]%Z : list label) ∧
  [[5]; [6]]%Z ≠ ([] : list row) ∧
  length ([[5]; [6]]%Z : list row) = length ([0; 1]%Z : list label) ∧
  Fitted RandomForestClassifier (m_params default_model)
    (zip [[1]; [2]; [3]; [4]]%Z [0; 1; 0; 1]%Z)
    ∈ trace (toy_section_1 (World Toy.small_store [])).2.
Proof.
  assert (toy_load_data 42 (World Toy.small_store [])
          = (Returns (NdArray [[1]; [2]; [3]; [4]]%Z, NdArray [[5]; [6]]%Z,
                      Labels [0; 1; 0; 1]%Z, Labels [0; 1]%Z),
             World Toy.small_store [Printed MsgLoadedData])) as H0.
  { rewrite load_or_create_demo_data_run. reflexivity. }
  assert (0 < 1) as Hk by lia.
  assert (has_width 1 [[1]; [2]; [3]; [4]]%Z) as Hw1 by (repeat constructor).
  assert (has_width 1 [[5]; [6]]%Z) as Hw2 by (repeat constructor).
  assert ([[1]; [2]; [3]; [4]]%Z ≠ ([] : list row)) as H1 by discriminate.
  assert (length ([[1]; [2]; [3]; [4]]%Z : list row)
          = length ([0; 1; 0; 1]%Z : list label)) as H2 by reflexivity.
  assert ([[5]; [6]]%Z ≠ ([] : list row)) as H3 by discriminate.
  assert (length ([[5]; [6]]%Z : list row)
          = length ([0; 1]%Z : list label)) as H4 by reflexivity.
  split_and!;
    [exact H0|exact Hk|exact Hw1|exact Hw2|exact H1|exact H2|exact H3
    |exact H4|].
  destruct (proj1 (fresh_default_fitted_loaded_kept Toy.predict_row
                     Toy.draw_feature Toy.draw_label Toy.rng_key
                     Toy.np_random _ _ _ _ _ _ 1 H0 Hk Hw1 Hw2 H1 H2 H3 H4))
    as (e & a_train & a_test & _ & _ & ->).
  { intros o Ho. vm_compute in Ho. discriminate. }
  cbn [snd trace]. apply elem_of_app. right. right. left.
Defined.

(** C6 from an empty store. *)
Lemma fallback_shapes_witness :
  first_failure (fs Toy.empty_world) dataset_paths
    = Some (Absent X_train_path) ∧
  ∃ X_train X_test y_train y_test,
    (load_or_create_demo_data Toy.draw_feature Toy.draw_label Toy.rng_key
       Toy.np_random 42
       Toy.empty_world).1
      = Returns (NdArray X_train, NdArray X_test,
                 Labels y_train, Labels y_test) ∧
    length X_train = 320 ∧ length y_train = 320 ∧
    length X_test = 80 ∧ length y_test = 80.
Proof.
  assert (first_failure (fs Toy.empty_world) dataset_paths
          = Some (Absent X_train_path)) as H1 by reflexivity.
  split; [exact H1|].
  destruct (fallback_shapes Toy.draw_feature Toy.draw_label Toy.rng_key
              Toy.np_random 42
              Toy.empty_world X_train_path H1)
    as (_ & _ & _ & _ & _ & _ & X_train & X_test & y_train & y_test
        & Hload & Ha & Hb & Hc & Hd & _).
  exists X_train, X_test, y_train, y_test. split_and!; assumption.
Defined.


(** C9 on two samples and three folds. *)
Lemma grid_search_too_few_samples_witness :
  indexable (NdArray [[1]; [2]]%Z) (Labels [0; 1]%Z)
    = Returns (zip [[1]; [2]]%Z [0; 1]%Z) ∧
  length (zip [[1]; [2]]%Z [0; 1]%Z) < cv rf_grid_search ∧
  GridSearchCV_fit Toy.predict_row rf_grid_search (NdArray [[1]; [2]]%Z)
    (Labels [0; 1]%Z) Toy.empty_world
  = (Raises ConfigurationError, Toy.empty_world).
Proof.
  assert (indexable (NdArray [[1]; [2]]%Z) (Labels [0; 1]%Z)
          = Returns (zip [[1]; [2]]%Z [0; 1]%Z)) as H1 by reflexivity.
  assert (length (zip [[1]; [2]]%Z [0; 1]%Z) < cv rf_grid_search) as H2
    by (simpl; lia).
  split_and!; [exact H1|exact H2|].
  exact (proj1 (grid_search_too_few_samples Toy.predict_row Toy.draw_feature
                  Toy.draw_label Toy.rng_key Toy.np_random Toy.write_error
                  rf_grid_search _ _ _ Toy.empty_world H1 H2)).
Defined.


(** X2 on the small store: every fit of the run is within its four
    training samples. *)
Lemma fits_only_on_the_training_partition_witness :
  toy_load_data 42 (World Toy.small_store [])
  = (Returns (NdArray [[1]; [2]; [3]; [4]]%Z, NdArray [[5]; [6]]%Z,
              Labels [0; 1; 0; 1]%Z, Labels [0; 1]%Z),
     World Toy.small_store [Printed MsgLoadedData]) ∧
  Forall (fits_within (NdArray [[1]; [2]; [3]; [4]]%Z) (Labels [0; 1; 0; 1]%Z))
    (trace (toy_notebook (World Toy.small_store [])).2).
Proof.
  assert (toy_load_data 42 (World Toy.small_store [])
          = (Returns (NdArray [[1]; [2]; [3]; [4]]%Z, NdArray [[5]; [6]]%Z,
                      Labels [0; 1; 0; 1]%Z, Labels [0; 1]%Z),
             World Toy.small_store [Printed MsgLoadedData])) as H0.
  { rewrite load_or_create_demo_data_run. reflexivity. }
  split; [exact H0|].
  exact (fits_only_on_the_training_partition Toy.predict_row Toy.draw_feature
           Toy.draw_label Toy.rng_key Toy.np_random Toy.write_error
           _ _ _ _ _ _ H0).
Defined.

(** X3 on a store whose first data file does not unpickle. *)
Lemma failed_run_writes_nothing_witness :
  (toy_notebook (World Toy.broken_store [])).1 = Raises UnpicklingError ∧
  fs (toy_notebook (World Toy.broken_store [])).2
  = Toy.broken_store.
Proof.
  assert ((toy_notebook (World Toy.broken_store [])).1
          = Raises UnpicklingError) as H0 by (vm_compute; reflexivity).
  split; [exact H0|].
  exact (proj1 (failed_run_writes_nothing Toy.predict_row Toy.draw_feature
                  Toy.draw_label Toy.rng_key Toy.np_random Toy.write_error
                  _ _ H0)).
Defined.

(** X6 from an empty store, on a file system that accepts the write. *)
Lemma demo_runs_when_files_are_missing_witness :
  first_failure (fs Toy.empty_world) dataset_paths
    = Some (Absent X_train_path) ∧
  (toy_notebook Toy.empty_world).1 = Returns tt ∧
  fs (toy_notebook Toy.empty_world).2 !! X_train_path = None.
Proof.
  assert (first_failure (fs Toy.empty_world) dataset_paths
          = Some (Absent X_train_path)) as H1 by reflexivity.
  split; [exact H1|].
  destruct (demo_runs_when_files_are_missing Toy.predict_row Toy.draw_feature
              Toy.draw_label Toy.rng_key Toy.np_random Toy.write_error _ _ H1)
    as (_ & Hreturns & Hmissing).
  { intros o Ho. vm_compute in Ho. discriminate. }
  split; [apply Hreturns; reflexivity|exact Hmissing].
Defined.

(** X8 on the small store: the first run saves, the second leaves the
    store as it finds it. *)
Lemma rerun_after_save_is_stable_witness :
  Exists is_dump (trace (toy_notebook (World Toy.small_store [])).2) ∧
  fs (toy_notebook (toy_notebook (World Toy.small_store [])).2).2
  = fs (toy_notebook (World Toy.small_store [])).2.
Proof.
  assert (Exists is_dump
            (drop (length (trace (World Toy.small_store [])))
               (trace (toy_notebook (World Toy.small_store [])).2))) as H0.
  { vm_compute.
    repeat first [apply Exists_cons_hd; exact I | apply Exists_cons_tl]. }
  split; [exact H0|].
  destruct (rerun_after_save_is_stable Toy.predict_row Toy.draw_feature
              Toy.draw_label Toy.rng_key Toy.np_random Toy.write_error
              _ H0) as (best & _ & _ & Hfs & _).
  exact Hfs.
Defined.

(** X9 on a logistic regression saved before fitting. *)
Lemma loaded_unusable_object_stops_the_run_witness :
  toy_load_data 42 (World Toy.logreg_store [])
  = (Returns (NdArray [[1]; [2]; [3]; [4]]%Z, NdArray [[5]; [6]]%Z,
              Labels [0; 1; 0; 1]%Z, Labels [0; 1]%Z),
     World Toy.logreg_store [Printed MsgLoadedData]) ∧
  Toy.logreg_store !! best_model_path
    = Some (Readable (Estimator Toy.unfitted_logreg)) ∧
  toy_notebook (World Toy.logreg_store [])
  = (Raises NotFittedError,
     World Toy.logreg_store
       [Printed MsgLoadedData; Printed (MsgLoadedModel best_model_path)]).
Proof.
  assert (toy_load_data 42 (World Toy.logreg_store [])
          = (Returns (NdArray [[1]; [2]; [3]; [4]]%Z, NdArray [[5]; [6]]%Z,
                      Labels [0; 1; 0; 1]%Z, Labels [0; 1]%Z),
             World Toy.logreg_store [Printed MsgLoadedData])) as H0
    by (vm_compute; reflexivity).
  assert (fs (World Toy.logreg_store []) !! best_model_path
          = Some (Readable (Estimator Toy.unfitted_logreg))) as H1
    by (vm_compute; reflexivity).
  split_and!; [exact H0|exact H1|].
  apply (loaded_unusable_object_stops_the_run Toy.predict_row
           Toy.draw_feature Toy.draw_label Toy.rng_key Toy.np_random
           Toy.write_error _ _ _ _ H0 H1).
  split; [reflexivity|discriminate].
Defined.

(** X10 on a forest of seven trees saved before fitting. *)
Lemma loaded_unfitted_forest_is_fitted_witness :
  toy_load_data 42 (World Toy.forest_store [])
  = (Returns (NdArray [[1]; [2]; [3]; [4]]%Z, NdArray [[5]; [6]]%Z,
              Labels [0; 1; 0; 1]%Z, Labels [0; 1]%Z),
     World Toy.forest_store [Printed MsgLoadedData]) ∧
  Toy.forest_store !! best_model_path
    = Some (Readable (Estimator Toy.unfitted_forest)) ∧
  ∃ evs,
    trace (toy_section_1 (World Toy.forest_store [])).2
    = Printed MsgLoadedData
      :: Printed (MsgLoadedModel best_model_path)
      :: Fitted RandomForestClassifier [("n_estimators", PInt 7)]
           [([1], 0); ([2], 1); ([3], 0); ([4], 1)]%Z
      :: evs.
Proof.
  assert (toy_load_data 42 (World Toy.forest_store [])
          = (Returns (NdArray [[1]; [2]; [3]; [4]]%Z, NdArray [[5]; [6]]%Z,
                      Labels [0; 1; 0; 1]%Z, Labels [0; 1]%Z),
             World Toy.forest_store [Printed MsgLoadedData])) as H0
    by (vm_compute; reflexivity).
  assert (fs (World Toy.forest_store []) !! best_model_path
          = Some (Readable (Estimator Toy.unfitted_forest))) as H1
    by (vm_compute; reflexivity).
  split_and!; [exact H0|exact H1|].
  exact (proj1 (loaded_unfitted_forest_is_fitted Toy.predict_row
                  Toy.draw_feature Toy.draw_label Toy.rng_key Toy.np_random
                  _ _ _ _ _ _
                  Toy.unfitted_forest _ _ H0 H1 eq_refl eq_refl
                  eq_refl)).
Defined.

(** X11 on three training rows and two training labels. *)
Lemma inconsistent_training_data_stops_the_run_witness :
  toy_load_data 42 (World Toy.ragged_store [])
  = (Returns (NdArray [[1]; [2]; [3]]%Z, NdArray [[5]; [6]]%Z,
              Labels [0; 1]%Z, Labels [0; 1]%Z),
     World Toy.ragged_store [Printed MsgLoadedData]) ∧
  (toy_notebook (World Toy.ragged_store [])).1 = Raises ValueError.
Proof.
  assert (toy_load_data 42 (World Toy.ragged_store [])
          = (Returns (NdArray [[1]; [2]; [3]]%Z, NdArray [[5]; [6]]%Z,
                      Labels [0; 1]%Z, Labels [0; 1]%Z),
             World Toy.ragged_store [Printed MsgLoadedData])) as H0
    by (vm_compute; reflexivity).
  split; [exact H0|].
  destruct (inconsistent_training_data_stops_the_run Toy.predict_row
              Toy.draw_feature Toy.draw_label Toy.rng_key Toy.np_random
              Toy.write_error _ _ _ _ _ _ H0)
    as [msg ->]; [simpl; lia| |reflexivity].
  intros o Ho. vm_compute in Ho. discriminate.
Defined.

(** X12 on a model that is right on one of two test samples. *)
Lemma accuracy_is_a_fraction_witness :
  test_accuracy Toy.predict_row (Estimator Toy.always_0)
    (NdArray [[5]; [6]]%Z) (Labels [0; 1]%Z) = Returns (Finite (1 # 2)) ∧
  ∃ q, Finite (1 # 2) = Finite q ∧ (0 <= q <= 1)%Q.
Proof.
  assert (test_accuracy Toy.predict_row (Estimator Toy.always_0)
            (NdArray [[5]; [6]]%Z) (Labels [0; 1]%Z)
          = Returns (Finite (1 # 2))) as H1 by (vm_compute; reflexivity).
  split; [exact H1|].
  exact (accuracy_is_a_fraction Toy.predict_row _ _ _ _ H1).
Defined.
